(** * headless-express: the view resolvers of [server.js]

    A shallow embedding of the Express front end for a headless WordPress
    site: the sidebar aggregator [getSidebarData] and the three route
    handlers (listing, single post, category archive), together with the
    parts of the JavaScript run time they rely on ([parseInt], the [||]
    default, property reads, [Array.isArray], template literals, object
    literals with spread, [Promise.all], [try]/[catch]).

    The WordPress REST API and the EJS renderer are external; the first is
    an oracle answering each request, the second a recorded call.
    [console.error] output is diagnostic only and is left out. *)

From Stdlib Require Import ZArith List Ascii String DecimalString Bool Lia.
From Stdlib Require DecimalPos.
From stdpp Require Import base tactics option list gmap strings.

Open Scope Z_scope.

(** ** JavaScript strings

    A JavaScript string is a sequence of UTF-16 code units. *)

Definition jsstring := list N.

(** An ASCII literal as a JavaScript string. *)
Definition js (s : string) : jsstring :=
  List.map N_of_ascii (list_ascii_of_string s).

(** ** JavaScript numbers

    The values of an IEEE 754 double, named by what they denote. [Integer z]
    is the finite double whose value is the integer [z] ([Integer 0] is +0),
    [Fraction neg n k] the finite double [± n / 2^k] that is not an integer. *)

Inductive number :=
| NaN
| Infinity (negative : bool)
| NegZero
| Integer (z : Z)
| Fraction (negative : bool) (num : positive) (den_log2 : positive).

(** ToBoolean on numbers: NaN and both zeros are falsy. *)
Definition truthy (x : number) : bool :=
  match x with
  | NaN | NegZero | Integer 0 => false
  | _ => true
  end.

(** [a || b] on numbers. *)
Definition or_default (a b : number) : number :=
  if truthy a then a else b.

(** The Number value of a mathematical integer: round to the nearest double,
    ties to the even significand, overflowing to an infinity. Integers of
    magnitude below 2^53 are exact. *)
Definition number_of_Z (z : Z) : number :=
  let a := Z.abs z in
  if a <? 2 ^ 53 then Integer z
  else
    let sh := Z.log2 a - 52 in
    let q := Z.shiftr a sh in
    let r := a - Z.shiftl q sh in
    let half := 2 ^ (sh - 1) in
    let q' := if (half <? r) || ((r =? half) && Z.odd q) then q + 1 else q in
    let v := Z.shiftl q' sh in
    if 2 ^ 1024 <=? v then Infinity (z <? 0)
    else Integer (Z.sgn z * v).

(** ** [parseInt(string, 10)] *)

(** WhiteSpace and LineTerminator code units, as StrWhiteSpaceChar. *)
Definition is_white_space (c : N) : bool :=
  match c with
  | 9 | 10 | 11 | 12 | 13 | 32 | 160 | 5760
  | 8192 | 8193 | 8194 | 8195 | 8196 | 8197 | 8198 | 8199 | 8200 | 8201 | 8202
  | 8232 | 8233 | 8239 | 8287 | 12288 | 65279 => true
  | _ => false
  end%N.

Definition is_digit (c : N) : bool := ((48 <=? c) && (c <=? 57))%N.

Definition digit_value (c : N) : Z := Z.of_N c - 48.

Fixpoint trim_start (s : jsstring) : jsstring :=
  match s with
  | c :: r => if is_white_space c then trim_start r else s
  | [] => []
  end.

Fixpoint leading_digits (s : jsstring) : list N :=
  match s with
  | c :: r => if is_digit c then c :: leading_digits r else []
  | [] => []
  end.

(** The mathematical integer written by a run of decimal digits. *)
Definition digits_value (ds : list N) : Z :=
  fold_left (fun acc c => 10 * acc + digit_value c) ds 0.

(** Strip one leading sign; the flag is true for a minus sign. *)
Definition strip_sign (s : jsstring) : bool * jsstring :=
  match s with
  | 45%N :: r => (true, r)
  | 43%N :: r => (false, r)
  | _ => (false, s)
  end.

(** [parseInt(s, 10)]: trim leading white space, take a sign, take the
    longest run of decimal digits; no digit gives NaN. With radix 10 no
    [0x] prefix is recognised. An engine may read the digits past the
    twentieth significant one as zeros; here every digit counts, which
    changes nothing below 10^20. *)
Definition parseInt (s : jsstring) : number :=
  let '(neg, s1) := strip_sign (trim_start s) in
  match leading_digits s1 with
  | [] => NaN
  | ds =>
      let mathInt := digits_value ds in
      if mathInt =? 0 then (if neg then NegZero else Integer 0)
      else number_of_Z (if neg then - mathInt else mathInt)
  end.

(** ToString of a value that is a string or [undefined], as [parseInt]
    applies it to its first argument. *)
Definition ToString_opt (v : option jsstring) : jsstring :=
  match v with
  | Some s => s
  | None => js "undefined"
  end.

(** [parseInt(v, 10) || 1], the page number of both paginated routes and the
    total page count read from the response header. *)
Definition page_or_1 (v : option jsstring) : number :=
  or_default (parseInt (ToString_opt v)) (Integer 1).

(** ** JavaScript values

    What a JSON body, a query parameter or a template local can hold. An
    object is its table of own properties. *)

#[warnings="-register-all"]
Inductive jsval :=
| JUndefined
| JNull
| JBool (b : bool)
| JNum (x : number)
| JStr (s : jsstring)
| JArr (items : list jsval)
| JObj (props : list (jsstring * jsval)).

(** A thrown value: the rejection of a failed request (network error or a
    status outside 2xx), a TypeError raised by the engine, or
    [new Error(message)]. *)
Inductive thrown :=
| AxiosError (message : jsstring)
| TypeError
| Error (message : jsstring).

(** How an evaluation or a promise ends. *)
Inductive outcome (A : Type) :=
| Fulfilled (a : A)
| Rejected (e : thrown).

Arguments Fulfilled {A} a.
Arguments Rejected {A} e.

Definition isArray (v : jsval) : bool :=
  match v with
  | JArr _ => true
  | _ => false
  end.

(** [v.length] of an array. *)
Definition array_length (v : jsval) : nat :=
  match v with
  | JArr items => length items
  | _ => 0%nat
  end.

(** [v[i]] of an array; [undefined] past the end. *)
Definition item (v : jsval) (i : nat) : jsval :=
  match v with
  | JArr items => default JUndefined (items !! i)
  | _ => JUndefined
  end.

Fixpoint own_property (props : list (jsstring * jsval)) (k : jsstring) : option jsval :=
  match props with
  | [] => None
  | (k', v) :: rest => if decide (k' = k) then Some v else own_property rest k
  end.

(** [v.name] for the names the server reads ([title], [rendered], [id],
    [name]): none of them is defined on a built-in prototype, so only an
    object's own property can answer; reading from [undefined] or [null]
    throws. *)
Definition get (v : jsval) (name : string) : outcome jsval :=
  match v with
  | JUndefined | JNull => Rejected TypeError
  | JObj props => Fulfilled (default JUndefined (own_property props (js name)))
  | _ => Fulfilled JUndefined
  end.

(** An object literal: named properties and spreads, evaluated left to
    right, a later entry overwriting an earlier one. *)
Inductive entry :=
| Field (k : string) (v : jsval)
| Spread (o : gmap string jsval).

Definition object_literal (es : list entry) : gmap string jsval :=
  fold_left
    (fun o e =>
       match e with
       | Field k v => <[k:=v]> o
       | Spread s => s ∪ o
       end)
    es ∅.

(** ** Requests, responses and the renderer *)

Record request := { path : string; params : list (string * jsval) }.

(** An axios response: the parsed body and the response headers (names in
    lower case). *)
Record response := { data : jsval; headers : gmap string jsstring }.

Inductive reply :=
| Ok (r : response)
| Failed (message : jsstring).

(** [res.status(s).render(view, locals)]; the status is 200 when the handler
    does not set it. *)
Record render_call := { status : Z; view : string; locals : gmap string jsval }.

(** What one request to the server does to the outside: the upstream
    requests it issues and the renders it asks for, in order. *)
Record world := { issued : list request; rendered : list render_call }.

Definition start : world := {| issued := []; rendered := [] |}.

(** An asynchronous computation, run to its settlement. *)
Definition async (A : Type) : Type := world -> world * outcome A.

Definition resolve {A} (a : A) : async A := fun w => (w, Fulfilled a).

Definition throw {A} (e : thrown) : async A := fun w => (w, Rejected e).

Definition settle {A} (o : outcome A) : async A := fun w => (w, o).

(** [await]: continue with the value, or stop at the rejection. *)
Definition await {A B} (m : async A) (k : A -> async B) : async B :=
  fun w =>
    match m w with
    | (w', Fulfilled a) => k a w'
    | (w', Rejected e) => (w', Rejected e)
    end.

Notation "'let!' x ':=' m 'in' k" := (await m (fun x => k))
  (at level 10, x pattern, m at level 100, k at level 200).

Definition try_catch {A} (body : async A) (handler : thrown -> async A) : async A :=
  fun w =>
    match body w with
    | (w', Fulfilled a) => (w', Fulfilled a)
    | (w', Rejected e) => handler e w'
    end.

(** [Promise.all([a, b])]: both are started, in order, and both run to their
    end whatever the other does; the result is the pair, or a rejection when
    either rejects. When both reject JavaScript keeps the rejection that
    settles first; arrival times are not modelled and the first in the array
    is kept (the only place where two can reject, [getSidebarData], does not
    look at it). *)
Definition all2 {A B} (a : async A) (b : async B) : async (A * B) :=
  fun w =>
    let '(w1, ra) := a w in
    let '(w2, rb) := b w1 in
    (w2,
     match ra, rb with
     | Fulfilled x, Fulfilled y => Fulfilled (x, y)
     | Rejected e, _ => Rejected e
     | _, Rejected e => Rejected e
     end).

Definition render (s : Z) (v : string) (l : gmap string jsval) : async unit :=
  fun w =>
    ({| issued := issued w;
        rendered := rendered w ++ [{| status := s; view := v; locals := l |}] |},
     Fulfilled tt).

Definition str (s : string) : jsval := JStr (js s).
Definition num (z : Z) : jsval := JNum (Integer z).

Section Server.

(** The WordPress REST API: the answer to a request, given how many requests
    this handler run has issued before it. *)
Variable upstream : nat -> request -> reply.

(** Number::toString, the engine's shortest decimal form of a number. *)
Variable Number_toString : number -> jsstring.

(** ToString of a value, as a template literal applies it. An array joins
    its elements with commas, [undefined] and [null] elements being empty;
    an object is ["[object Object]"], unless it has an own [toString]
    property: no parsed value is callable, so the conversion then finds no
    method returning a primitive and throws. *)
Fixpoint ToString (v : jsval) : outcome jsstring :=
  match v with
  | JUndefined => Fulfilled (js "undefined")
  | JNull => Fulfilled (js "null")
  | JBool b => Fulfilled (js (if b then "true" else "false"))
  | JNum x => Fulfilled (Number_toString x)
  | JStr s => Fulfilled s
  | JArr items =>
      (fix join (l : list jsval) (first : bool) : outcome jsstring :=
         match l with
         | [] => Fulfilled []
         | x :: r =>
             let next :=
               match x with
               | JUndefined | JNull => Fulfilled []
               | _ => ToString x
               end in
             match next with
             | Rejected e => Rejected e
             | Fulfilled s =>
                 match join r false with
                 | Rejected e => Rejected e
                 | Fulfilled t => Fulfilled ((if first then [] else js ",") ++ s ++ t)
                 end
             end
         end) items true
  | JObj props =>
      match own_property props (js "toString") with
      | Some _ => Rejected TypeError
      | None => Fulfilled (js "[object Object]")
      end
  end.

(** [wpApi.get(path, { params })] *)
Definition wpApi_get (p : string) (ps : list (string * jsval)) : async response :=
  fun w =>
    let rq := {| path := p; params := ps |} in
    ({| issued := issued w ++ [rq]; rendered := rendered w |},
     match upstream (length (issued w)) rq with
     | Ok r => Fulfilled r
     | Failed m => Rejected (AxiosError m)
     end).

Definition getSidebarData : async (gmap string jsval) :=
  try_catch
    (let! (categoriesRes, recentPostsRes) :=
        all2 (wpApi_get "/categories" [("per_page", num 20); ("hide_empty", JBool true)])
             (wpApi_get "/posts" [("per_page", num 5)]) in
     resolve (object_literal [Field "categories" (data categoriesRes);
                              Field "recentPosts" (data recentPostsRes)]))
    (fun error =>
       resolve (object_literal [Field "categories" (JArr []);
                                Field "recentPosts" (JArr [])])).

(** [app.get(["/", "/page/:pageNumber"], ...)] *)
Definition home_route (pageNumber : option jsstring) : async unit :=
  try_catch
    (let currentPage := page_or_1 pageNumber in
     let! (postsRes, sidebarData) :=
        all2 (wpApi_get "/posts" [("per_page", num 10); ("page", JNum currentPage)])
             getSidebarData in
     let totalPages := page_or_1 (headers postsRes !! "x-wp-totalpages") in
     if negb (isArray (data postsRes)) then
       throw (Error (js "Invalid post data structure received from API."))
     else
       render 200 "index"
         (object_literal [Field "posts" (data postsRes);
                          Field "title" (str "Modern Headless Blog");
                          Spread sidebarData;
                          Field "currentPage" (JNum currentPage);
                          Field "totalPages" (JNum totalPages)]))
    (fun error =>
       render 500 "error"
         (object_literal
            [Field "message" (str "Could not fetch posts. Please check the API connection.");
             Field "title" (str "Error")])).

(** [app.get("/post/:slug", ...)] *)
Definition single_post_route (slug : jsstring) : async unit :=
  try_catch
    (let! (postRes, sidebarData) :=
        all2 (wpApi_get "/posts" [("slug", JStr slug); ("_embed", JBool true)])
             getSidebarData in
     if negb (isArray (data postRes)) || (array_length (data postRes) =? 0)%nat then
       render 404 "error"
         (object_literal
            [Field "message" (str "The post you were looking for could not be found.");
             Field "title" (str "Post Not Found");
             Spread sidebarData])
     else
       let post := item (data postRes) 0 in
       let! title := settle (get post "title") in
       let! title_rendered := settle (get title "rendered") in
       render 200 "single-post"
         (object_literal [Field "post" post;
                          Field "title" title_rendered;
                          Spread sidebarData]))
    (fun error =>
       render 500 "error"
         (object_literal
            [Field "message" (str "Could not fetch the post. Please check the API connection.");
             Field "title" (str "Error")])).

(** [app.get(["/category/:slug", "/category/:slug/page/:pageNumber"], ...)] *)
Definition category_archive_route (slug : jsstring) (pageNumber : option jsstring)
  : async unit :=
  try_catch
    (let currentPage := page_or_1 pageNumber in
     let! sidebarData := getSidebarData in
     let! categoryRes := wpApi_get "/categories" [("slug", JStr slug)] in
     if negb (isArray (data categoryRes)) || (array_length (data categoryRes) =? 0)%nat then
       render 404 "error"
         (object_literal
            [Field "message" (str "The category you were looking for could not be found.");
             Field "title" (str "Category Not Found");
             Spread sidebarData])
     else
       let category := item (data categoryRes) 0 in
       let! category_id := settle (get category "id") in
       let! postsRes :=
         wpApi_get "/posts" [("categories", category_id);
                             ("per_page", num 10);
                             ("page", JNum currentPage)] in
       let totalPages := page_or_1 (headers postsRes !! "x-wp-totalpages") in
       let! category_name := settle (get category "name") in
       let! name_text := settle (ToString category_name) in
       render 200 "category-archive"
         (object_literal [Field "posts" (data postsRes);
                          Field "category" category;
                          Field "title" (JStr (js "Category: " ++ name_text));
                          Spread sidebarData;
                          Field "currentPage" (JNum currentPage);
                          Field "totalPages" (JNum totalPages)]))
    (fun error =>
       render 500 "error"
         (object_literal
            [Field "message" (str "Could not fetch posts for this category.");
             Field "title" (str "Error")])).

(** The route table. *)
Inductive route :=
| Home (pageNumber : option jsstring)
| SinglePost (slug : jsstring)
| CategoryArchive (slug : jsstring) (pageNumber : option jsstring).

Definition handle (r : route) : async unit :=
  match r with
  | Home p => home_route p
  | SinglePost s => single_post_route s
  | CategoryArchive s p => category_archive_route s p
  end.

End Server.

(** ** Vocabulary of the properties *)

(** The sign and the digits that [parseInt] reads from a route parameter or
    header value, and the integer those digits write. *)
Definition page_minus (v : option jsstring) : bool :=
  fst (strip_sign (trim_start (ToString_opt v))).

Definition page_digits (v : option jsstring) : list N :=
  leading_digits (snd (strip_sign (trim_start (ToString_opt v)))).

Definition page_magnitude (v : option jsstring) : Z :=
  digits_value (page_digits v).

(** A number that is neither NaN nor a zero. *)
Definition nonzero_number (x : number) : Prop :=
  match x with
  | Infinity _ => True
  | Integer z => z <> 0
  | _ => False
  end.

Definition positive_integer (x : number) : Prop :=
  match x with
  | Integer z => 0 < z
  | _ => False
  end.

(** What holds of a number [n] read by [parseInt(v, 10) || 1]: it is
    neither NaN nor a zero, and it is a positive integer when [v] has no
    minus sign before its digits and the digits write less than the
    overflow threshold of doubles. *)
Definition sound_page_number (v : option jsstring) (n : number) : Prop :=
  nonzero_number n /\
  (page_minus v = false -> page_magnitude v < 2 ^ 1024 - 2 ^ 970 ->
   positive_integer n).

(** The page parameter of a route. *)
Definition page_param (r : route) : option jsstring :=
  match r with
  | Home p => p
  | SinglePost _ => None
  | CategoryArchive _ p => p
  end.

(** The requests the handlers send. *)
Definition categories_request : request :=
  {| path := "/categories"; params := [("per_page", num 20); ("hide_empty", JBool true)] |}.

Definition recent_posts_request : request :=
  {| path := "/posts"; params := [("per_page", num 5)] |}.

Definition posts_page_request (page : number) : request :=
  {| path := "/posts"; params := [("per_page", num 10); ("page", JNum page)] |}.

Definition post_by_slug_request (slug : jsstring) : request :=
  {| path := "/posts"; params := [("slug", JStr slug); ("_embed", JBool true)] |}.

Definition category_by_slug_request (slug : jsstring) : request :=
  {| path := "/categories"; params := [("slug", JStr slug)] |}.

Definition category_posts_request (id : jsval) (page : number) : request :=
  {| path := "/posts";
     params := [("categories", id); ("per_page", num 10); ("page", JNum page)] |}.

Definition empty_sidebar : gmap string jsval :=
  object_literal [Field "categories" (JArr []); Field "recentPosts" (JArr [])].

(** The sidebar data that two replies give. *)
Definition sidebar_of (categoriesReply recentPostsReply : reply) : gmap string jsval :=
  match categoriesReply, recentPostsReply with
  | Ok c, Ok p =>
      object_literal [Field "categories" (data c); Field "recentPosts" (data p)]
  | _, _ => empty_sidebar
  end.

(** The renders of a handler run from a fresh request, and its requests. *)
Definition renders (h : async unit) : list render_call := rendered (fst (h start)).
Definition requests (h : async unit) : list request := issued (fst (h start)).

(** ** Sample sites, for running the handlers *)

Definition news_category : jsval :=
  JObj [(js "id", num 3); (js "slug", str "news"); (js "name", str "News")].

Definition hello_post : jsval :=
  JObj [(js "id", num 41); (js "slug", str "hello");
        (js "title", JObj [(js "rendered", str "Hello")])].

(** A site with one category and one post, four pages of posts. *)
Definition blog_site (n : nat) (rq : request) : reply :=
  if String.eqb (path rq) "/categories" then
    Ok {| data := JArr [news_category]; headers := ∅ |}
  else
    Ok {| data := JArr [hello_post]; headers := {[ "x-wp-totalpages" := js "4" ]} |}.

(** A site that cannot be reached. *)
Definition offline_site (n : nat) (rq : request) : reply :=
  Failed (js "connect ECONNREFUSED").

(** A site without content: every list is empty. *)
Definition bare_site (n : nat) (rq : request) : reply :=
  Ok {| data := JArr []; headers := ∅ |}.

(** [blog_site], except that every posts request is answered with an error
    object in a 2xx response instead of a list. *)
Definition malformed_posts_site (n : nat) (rq : request) : reply :=
  if String.eqb (path rq) "/posts" then
    Ok {| data := JObj [(js "code", str "rest_error")]; headers := ∅ |}
  else blog_site n rq.

(** [blog_site], except that the [k]-th request of a run fails. *)
Definition failing_at (k : nat) (n : nat) (rq : request) : reply :=
  if (n =? k)%nat then Failed (js "Request failed with status code 503")
  else blog_site n rq.

(** [blog_site], with a negative total page count in the header. *)
Definition negative_total_site (n : nat) (rq : request) : reply :=
  match blog_site n rq with
  | Ok r => Ok {| data := data r; headers := {[ "x-wp-totalpages" := js "-2" ]} |}
  | Failed m => Failed m
  end.

(** A formatter for the runs below. It is Number::toString on NaN, the
    infinities, the zeros and the integers of magnitude below 10^21, which
    JavaScript writes out in full, and on no other number: it is a stand-in
    for the parameter of the archive route in runs that format no number. *)
Definition plain_Number_toString (x : number) : jsstring :=
  match x with
  | NaN => js "NaN"
  | Infinity true => js "-Infinity"
  | Infinity false => js "Infinity"
  | Integer z => js (NilEmpty.string_of_int (Z.to_int z))
  | _ => js "0"
  end.

(** ** Process start

    The top of [server.js], up to the call of [app.listen]. [process.env],
    after dotenv has filled it, maps names to strings; a variable is truthy
    when it is set and not empty. *)

(** The configuration handed to [axios.create]. *)
Record client := { baseURL : jsstring; client_headers : gmap string jsstring }.

(** How the start ends: [process.exit(code)], or [app.listen(PORT)] with the
    client [wpApi] built. *)
Inductive started :=
| Exited (code : Z)
| Listening (PORT : jsval) (wpApi : client).

Definition server_start (env : gmap string jsstring) : started :=
  let PORT :=
    match env !! "PORT" with
    | Some (c :: s) => JStr (c :: s)
    | _ => num 3000
    end in
  match env !! "WP_URL" with
  | Some (c :: url) =>
      let apiHeaders : gmap string jsstring :=
        match env !! "WP_API_KEY" with
        | Some (k :: key) => <["Authorization" := js "Bearer " ++ k :: key]> ∅
        | _ => ∅
        end in
      Listening PORT
        {| baseURL := (c :: url) ++ js "/wp-json/wp/v2";
           client_headers := apiHeaders |}
  | _ => Exited 1
  end.

(** ** Vocabulary of the further properties *)

(** The view a route renders when all goes well. *)
Definition success_view (r : route) : string :=
  match r with
  | Home _ => "index"
  | SinglePost _ => "single-post"
  | CategoryArchive _ _ => "category-archive"
  end.

(** The three requests with which a run of a route opens. *)
Definition opening_requests (r : route) : list request :=
  match r with
  | Home p =>
      [posts_page_request (page_or_1 p); categories_request; recent_posts_request]
  | SinglePost s =>
      [post_by_slug_request s; categories_request; recent_posts_request]
  | CategoryArchive s _ =>
      [categories_request; recent_posts_request; category_by_slug_request s]
  end.

(** The first request a route sends for its own content, and its position
    in the run. *)
Definition primary_position (r : route) : nat :=
  match r with
  | CategoryArchive _ _ => 2%nat
  | _ => 0%nat
  end.

Definition primary_request (r : route) : request :=
  match r with
  | Home p => posts_page_request (page_or_1 p)
  | SinglePost s => post_by_slug_request s
  | CategoryArchive s _ => category_by_slug_request s
  end.

(** The position of the sidebar's categories request in a run; the
    recent-posts request follows it. *)
Definition sidebar_position (r : route) : nat :=
  match r with
  | CategoryArchive _ _ => 0%nat
  | _ => 1%nat
  end.

(** The message of a route's 500 error view. *)
Definition failure_message (r : route) : string :=
  match r with
  | Home _ => "Could not fetch posts. Please check the API connection."
  | SinglePost _ => "Could not fetch the post. Please check the API connection."
  | CategoryArchive _ _ => "Could not fetch posts for this category."
  end.

Definition error_500 (message : string) : render_call :=
  {| status := 500; view := "error";
     locals := object_literal [Field "message" (str message);
                               Field "title" (str "Error")] |}.

(** A request with the parameter names of one of the two sidebar requests. *)
Definition is_sidebar_request (rq : request) : bool :=
  bool_decide (map fst (params rq) = ["per_page"; "hide_empty"]) ||
  bool_decide (map fst (params rq) = ["per_page"]).

(** A first array element from which [.title.rendered] cannot be read:
    [null] or [undefined], or a value whose [title] is missing or [null]. *)
Definition untitled (p : jsval) : bool :=
  match p with
  | JObj props =>
      match own_property props (js "title") with
      | None | Some JUndefined | Some JNull => true
      | Some _ => false
      end
  | _ => true
  end.

(** ** More sample sites *)

(** A site whose sidebar endpoints are down. *)
Definition without_sidebar (up : nat -> request -> reply) (n : nat) (rq : request)
  : reply :=
  if is_sidebar_request rq then Failed (js "Request failed with status code 502")
  else up n rq.

(** A site whose every list holds the one element [v]. *)
Definition site_of (v : jsval) (n : nat) (rq : request) : reply :=
  Ok {| data := JArr [v]; headers := ∅ |}.

(** A category whose name cannot be turned into a string. *)
Definition odd_category : jsval :=
  JObj [(js "id", num 3); (js "name", JObj [(js "toString", JNull)])].

(** The decimal numeral of a positive integer, as a page link writes it. *)
Definition decimal (n : positive) : jsstring :=
  js (NilEmpty.string_of_uint (Pos.to_uint n)).

(** An environment with the site and a key, and no port. *)
Definition sample_env : gmap string jsstring :=
  {[ "WP_URL" := js "https://cms.example.com"; "WP_API_KEY" := js "s3cret" ]}.

(** The sign written before the digits of a numeral: none, [+] or [-]; and
    the integer a sign and a magnitude write. *)
Definition sign_text (sg : option bool) : jsstring :=
  match sg with
  | None => []
  | Some false => js "+"
  | Some true => js "-"
  end.

Definition signed (sg : option bool) (m : Z) : Z :=
  match sg with
  | Some true => - m
  | _ => m
  end.

(** * Properties *)

Example page_plain : page_or_1 (Some (js "7")) = Integer 7.
Proof. reflexivity. Qed.

Example page_absent : page_or_1 None = Integer 1.
Proof. reflexivity. Qed.

Example page_negative : page_or_1 (Some (js "-5")) = Integer (-5).
Proof. reflexivity. Qed.

Example page_prefix : page_or_1 (Some (js "2abc")) = Integer 2.
Proof. reflexivity. Qed.

Example number_written_out :
  plain_Number_toString (Integer (-120)) = js "-120".
Proof. reflexivity. Qed.

Example round_tie_even : number_of_Z (2 ^ 53 + 1) = Integer (2 ^ 53).
Proof. reflexivity. Qed.

Example round_tie_up : number_of_Z (2 ^ 53 + 3) = Integer (2 ^ 53 + 4).
Proof. reflexivity. Qed.

Example round_overflow : number_of_Z (10 ^ 309) = Infinity false.
Proof. vm_compute. reflexivity. Qed.

Example round_max : number_of_Z (2 ^ 1024 - 2 ^ 970 - 1) = Integer ((2 ^ 53 - 1) * 2 ^ 971).
Proof. vm_compute. reflexivity. Qed.

Example round_over : number_of_Z (2 ^ 1024 - 2 ^ 970) = Infinity false.
Proof. vm_compute. reflexivity. Qed.

(** ** The sidebar aggregator *)

Lemma issued_two (l : list request) a b : (l ++ [a]) ++ [b] = l ++ [a; b].
Proof. rewrite <- app_assoc. reflexivity. Qed.

Lemma length_issued_one (l : list request) a : length (l ++ [a]) = S (length l).
Proof. rewrite length_app. simpl. lia. Qed.

(** One run of [getSidebarData]: both requests are sent, and the result is
    decided by the two replies. *)
Lemma getSidebarData_run up w :
  getSidebarData up w =
    ({| issued := issued w ++ [categories_request; recent_posts_request];
        rendered := rendered w |},
     Fulfilled (sidebar_of (up (length (issued w)) categories_request)
                           (up (S (length (issued w))) recent_posts_request))).
Proof.
  unfold getSidebarData, try_catch, await, all2, wpApi_get, resolve. simpl.
  rewrite length_issued_one, issued_two.
  fold categories_request recent_posts_request.
  destruct (up (length (issued w)) categories_request),
           (up (S (length (issued w))) recent_posts_request); reflexivity.
Qed.

Lemma dom_sidebar_of c p :
  dom (sidebar_of c p) = ({["categories"; "recentPosts"]} : gset string).
Proof.
  destruct c, p; unfold sidebar_of, empty_sidebar, object_literal; simpl;
    rewrite !dom_insert_L, dom_empty_L; set_solver.
Qed.

(** C3. Whatever the two upstream calls answer, [getSidebarData] sends both
    requests and returns a value, never raising; when the categories call
    or the recent-posts call fails, the value returned is exactly
    [{categories: [], recentPosts: []}], with nothing of a successful reply
    in it. *)
Theorem getSidebarData_degrades (up : nat -> request -> reply) (w : world) :
  exists sidebar,
    getSidebarData up w =
      ({| issued := issued w ++ [categories_request; recent_posts_request];
          rendered := rendered w |},
       Fulfilled sidebar) /\
    ((exists m, up (length (issued w)) categories_request = Failed m) \/
     (exists m, up (S (length (issued w))) recent_posts_request = Failed m) ->
     sidebar = {[ "categories" := JArr []; "recentPosts" := JArr [] ]}).
Proof.
  eexists. split; [apply getSidebarData_run|].
  intros [[m Hm]|[m Hm]]; rewrite Hm.
  - reflexivity.
  - destruct (up (length (issued w)) categories_request); reflexivity.
Qed.

(** ** Numbers read by [parseInt] *)

Lemma number_of_Z_exact z : Z.abs z < 2 ^ 53 -> number_of_Z z = Integer z.
Proof.
  intros H. unfold number_of_Z.
  destruct (Z.ltb_spec (Z.abs z) (2 ^ 53)) as [_|Hge]; [reflexivity | lia].
Qed.

(** The significand and the shift of a magnitude of at least 2^53. *)
Lemma rounding_parts a :
  2 ^ 53 <= a ->
  let sh := Z.log2 a - 52 in
  let q := Z.shiftr a sh in
  1 <= sh /\ 2 ^ 52 <= q < 2 ^ 53 /\
  q * 2 ^ sh <= a < (q + 1) * 2 ^ sh /\ Z.shiftl q sh = q * 2 ^ sh.
Proof.
  intros Ha sh q.
  assert (Hpos : 0 < a) by (assert (0 < 2 ^ 53) by (apply Z.pow_pos_nonneg; lia); lia).
  assert (HL : 53 <= Z.log2 a) by (apply Z.log2_le_pow2; [lia | exact Ha]).
  destruct (Z.log2_spec a Hpos) as [Hlo Hhi].
  assert (Hsh : 1 <= sh) by (unfold sh; lia).
  assert (Hp : 0 < 2 ^ sh) by (apply Z.pow_pos_nonneg; lia).
  assert (Hq : q = a / 2 ^ sh) by (unfold q; apply Z.shiftr_div_pow2; lia).
  assert (E1 : 2 ^ Z.log2 a = 2 ^ 52 * 2 ^ sh).
  { rewrite <- Z.pow_add_r by lia. f_equal. unfold sh. lia. }
  assert (E2 : 2 ^ Z.succ (Z.log2 a) = 2 ^ 53 * 2 ^ sh).
  { rewrite <- Z.pow_add_r by lia. f_equal. unfold sh. lia. }
  assert (Hdm := Z.div_mod a (2 ^ sh) ltac:(lia)).
  assert (Hm := Z.mod_pos_bound a (2 ^ sh) Hp).
  rewrite <- Hq in Hdm.
  rewrite E1 in Hlo. rewrite E2 in Hhi.
  repeat split; try lia.
  - nia.
  - nia.
  - rewrite Z.shiftl_mul_pow2 by lia. reflexivity.
Qed.

Ltac name_rounded q q' :=
  match goal with
  | |- context [if ?c then q + 1 else q] =>
      set (q' := if c then q + 1 else q);
      assert (q <= q' <= q + 1) by (unfold q'; destruct c; lia)
  end.

(** Rounding never reaches zero or NaN. *)
Lemma number_of_Z_nonzero z : z <> 0 -> nonzero_number (number_of_Z z).
Proof.
  intros Hz. unfold number_of_Z.
  destruct (Z.ltb_spec (Z.abs z) (2 ^ 53)) as [_|Hge]; [exact Hz|].
  destruct (rounding_parts _ Hge) as (Hsh & Hq & Ha & Hl).
  set (sh := Z.log2 (Z.abs z) - 52) in *.
  set (q := Z.shiftr (Z.abs z) sh) in *.
  name_rounded q q'.
  assert (Hp : 0 < 2 ^ sh) by (apply Z.pow_pos_nonneg; lia).
  rewrite (Z.shiftl_mul_pow2 q') by lia.
  destruct (2 ^ 1024 <=? q' * 2 ^ sh); simpl; [exact I|].
  assert (0 < q' * 2 ^ sh) by nia.
  destruct z; simpl; lia.
Qed.

(** Below the overflow threshold a positive integer rounds to a positive
    integer. *)
Lemma number_of_Z_positive z :
  0 < z -> z < 2 ^ 1024 - 2 ^ 970 -> positive_integer (number_of_Z z).
Proof.
  intros Hz Hlt. unfold number_of_Z.
  rewrite (Z.abs_eq z) by lia.
  destruct (Z.ltb_spec z (2 ^ 53)) as [_|Hge]; [exact Hz|].
  destruct (rounding_parts _ Hge) as (Hsh & Hq & Ha & Hl).
  set (sh := Z.log2 z - 52) in *.
  set (q := Z.shiftr z sh) in *.
  rewrite Hl.
  set (r := z - q * 2 ^ sh).
  name_rounded q q'.
  assert (Hp : 0 < 2 ^ sh) by (apply Z.pow_pos_nonneg; lia).
  rewrite (Z.shiftl_mul_pow2 q') by lia.
  assert (Hsgn : Z.sgn z = 1) by (apply Z.sgn_pos; lia).
  assert (Hpp : 0 < 2 ^ 970) by (apply Z.pow_pos_nonneg; lia).
  assert (Hv : q' * 2 ^ sh < 2 ^ 1024).
  { assert (HL : Z.log2 z < 1024) by (apply Z.log2_lt_pow2; lia).
    destruct (Z.eq_dec sh 971) as [E|NE].
    - assert (Hhalf : 2 ^ (sh - 1) = 2 ^ 970) by (rewrite E; reflexivity).
      assert (H971 : 2 ^ sh = 2 * 2 ^ 970) by (rewrite E; reflexivity).
      assert (H1024 : 2 ^ 1024 = 2 ^ 53 * (2 * 2 ^ 970)) by reflexivity.
      destruct (Z.eq_dec q (2 ^ 53 - 1)) as [Eq|Nq].
      + assert (Hr : r < 2 ^ 970) by (unfold r; rewrite H971, Eq; rewrite H1024 in Hlt; lia).
        assert (Hsame : q' = q).
        { unfold q'. rewrite Hhalf.
          destruct (Z.ltb_spec (2 ^ 970) r); [lia|].
          destruct (Z.eqb_spec r (2 ^ 970)); [lia|]. reflexivity. }
        rewrite Hsame, H971, H1024, Eq. nia.
      + rewrite H971, H1024. nia.
    - assert (sh <= 970) by (unfold sh in *; lia).
      assert (2 ^ sh <= 2 ^ 970) by (apply Z.pow_le_mono_r; lia).
      assert (H1024 : 2 ^ 1024 = 2 ^ 54 * 2 ^ 970) by reflexivity.
      rewrite H1024. nia. }
  destruct (Z.leb_spec (2 ^ 1024) (q' * 2 ^ sh)); [lia|].
  simpl. rewrite Hsgn. nia.
Qed.

Lemma nonzero_number_truthy x : nonzero_number x -> truthy x = true.
Proof. destruct x as [| | |[]|]; simpl; intros H; try reflexivity; try contradiction; lia. Qed.

Lemma digits_value_nonneg_from acc ds :
  Forall (fun c => is_digit c = true) ds -> 0 <= acc ->
  0 <= fold_left (fun a c => 10 * a + digit_value c) ds acc.
Proof.
  intros H. revert acc. induction H as [|c ds Hc _ IH]; intros acc Hacc; simpl; [exact Hacc|].
  apply IH. unfold is_digit in Hc. apply andb_prop in Hc as [H1 _].
  apply N.leb_le in H1. unfold digit_value. lia.
Qed.

Lemma leading_digits_are_digits s : Forall (fun c => is_digit c = true) (leading_digits s).
Proof.
  induction s as [|c r IH]; simpl; [constructor|].
  destruct (is_digit c) eqn:E; constructor; assumption.
Qed.

Lemma page_magnitude_nonneg v : 0 <= page_magnitude v.
Proof.
  unfold page_magnitude, digits_value.
  apply digits_value_nonneg_from; [apply leading_digits_are_digits | lia].
Qed.

(** [parseInt(v, 10) || 1] from the sign and digits that are read: 1 when
    the digits are missing or write zero, else the rounded signed value. *)
Lemma page_or_1_eq v :
  page_or_1 v =
    if page_magnitude v =? 0 then Integer 1
    else number_of_Z (if page_minus v then - page_magnitude v else page_magnitude v).
Proof.
  unfold page_or_1, parseInt, page_magnitude, page_digits, page_minus.
  destruct (strip_sign (trim_start (ToString_opt v))) as [neg s1]. simpl.
  destruct (leading_digits s1) as [|d ds] eqn:E; [reflexivity|].
  destruct (Z.eqb_spec (digits_value (d :: ds)) 0) as [H0|Hn].
  - destruct neg; reflexivity.
  - unfold or_default. rewrite nonzero_number_truthy; [reflexivity|].
    apply number_of_Z_nonzero. destruct neg; lia.
Qed.

Lemma page_or_1_nonzero v : nonzero_number (page_or_1 v).
Proof.
  rewrite page_or_1_eq.
  destruct (Z.eqb_spec (page_magnitude v) 0) as [H0|Hn]; [simpl; lia|].
  apply number_of_Z_nonzero. destruct (page_minus v); lia.
Qed.

Lemma page_or_1_positive v :
  page_minus v = false -> page_magnitude v < 2 ^ 1024 - 2 ^ 970 ->
  positive_integer (page_or_1 v).
Proof.
  intros Hs Hb. rewrite page_or_1_eq, Hs.
  pose proof (page_magnitude_nonneg v).
  destruct (Z.eqb_spec (page_magnitude v) 0) as [H0|Hn]; [simpl; lia|].
  apply number_of_Z_positive; lia.
Qed.

Lemma page_or_1_default v :
  v = None \/ page_digits v = [] \/ page_magnitude v = 0 -> page_or_1 v = Integer 1.
Proof.
  intros H. rewrite page_or_1_eq.
  assert (H0 : page_magnitude v = 0).
  { destruct H as [->|[H|H]]; [reflexivity | | exact H].
    unfold page_magnitude. rewrite H. reflexivity. }
  rewrite H0. reflexivity.
Qed.

(** A run of digits followed by something else is read as that run. *)
Lemma leading_digits_app ds c rest :
  Forall (fun d => is_digit d = true) ds -> is_digit c = false ->
  leading_digits (ds ++ c :: rest) = ds.
Proof.
  intros H Hc. induction H as [|d ds Hd _ IH]; simpl.
  - rewrite Hc. reflexivity.
  - rewrite Hd, IH. reflexivity.
Qed.

Lemma digit_not_white c : is_digit c = true -> is_white_space c = false.
Proof.
  unfold is_digit. intros H. apply andb_prop in H as [H1 H2].
  apply N.leb_le in H1, H2.
  assert (H : (c = 48 \/ c = 49 \/ c = 50 \/ c = 51 \/ c = 52 \/
               c = 53 \/ c = 54 \/ c = 55 \/ c = 56 \/ c = 57)%N) by lia.
  repeat destruct H as [->|H]; try reflexivity. subst c. reflexivity.
Qed.

Lemma digit_not_sign c r : is_digit c = true -> strip_sign (c :: r) = (false, c :: r).
Proof.
  unfold is_digit. intros H. apply andb_prop in H as [H1 H2].
  apply N.leb_le in H1, H2.
  assert (H : (c = 48 \/ c = 49 \/ c = 50 \/ c = 51 \/ c = 52 \/
               c = 53 \/ c = 54 \/ c = 55 \/ c = 56 \/ c = 57)%N) by lia.
  repeat destruct H as [->|H]; try reflexivity. subst c. reflexivity.
Qed.

(** The digits and sign read from a parameter that starts with a digit. *)
Lemma page_parts_of_digits ds c rest :
  ds <> [] -> Forall (fun d => is_digit d = true) ds -> is_digit c = false ->
  page_minus (Some (ds ++ c :: rest)) = false /\
  page_digits (Some (ds ++ c :: rest)) = ds.
Proof.
  intros Hne Hds Hc. unfold page_minus, page_digits. simpl.
  destruct ds as [|d ds']; [congruence|].
  inversion Hds as [|? ? Hd Hds']; subst.
  change ((d :: ds') ++ c :: rest) with (d :: (ds' ++ c :: rest)).
  simpl trim_start. rewrite (digit_not_white d Hd).
  rewrite (digit_not_sign d _ Hd). simpl fst. simpl snd. split; [reflexivity|].
  change (d :: ds' ++ c :: rest) with ((d :: ds') ++ c :: rest).
  apply leading_digits_app; assumption.
Qed.

(** A parameter that starts with anything but white space, a sign or a
    digit has no digits to read. *)
Lemma page_digits_non_numeric c rest :
  is_digit c = false -> is_white_space c = false -> c <> 43%N -> c <> 45%N ->
  page_digits (Some (c :: rest)) = [].
Proof.
  intros Hd Hw Hplus Hminus. unfold page_digits. simpl. rewrite Hw.
  assert (Hs : strip_sign (c :: rest) = (false, c :: rest)).
  { unfold strip_sign. destruct c as [|p]; [reflexivity|].
    do 6 (try (destruct p as [p|p|]; try reflexivity; try congruence)). }
  rewrite Hs. simpl. rewrite Hd. reflexivity.
Qed.

(** A run of zeros writes zero. *)
Lemma digits_value_zeros ds : Forall (fun d => d = 48%N) ds -> digits_value ds = 0.
Proof.
  unfold digits_value. intros H. induction H as [|d ds -> _ IH]; [reflexivity|].
  simpl. exact IH.
Qed.

Example page_of_word : page_or_1 (Some (js "latest")) = Integer 1.
Proof. reflexivity. Qed.

Example page_of_zero : page_or_1 (Some (js "0")) = Integer 1.
Proof. reflexivity. Qed.

Example page_of_minus_zero : parseInt (js "-0") = NegZero /\ page_or_1 (Some (js "-0")) = Integer 1.
Proof. split; reflexivity. Qed.

Example page_of_padded : page_or_1 (Some (js " +12px")) = Integer 12.
Proof. reflexivity. Qed.

(** ** Running the handlers *)

Ltac run_route :=
  unfold renders, requests, handle, home_route, single_post_route,
    category_archive_route, try_catch, await, all2, wpApi_get, throw, render,
    settle, resolve in *;
  simpl in *; rewrite ?getSidebarData_run in *; simpl in *.

(** Split on every reply and every test a run goes through. *)
Ltac split_run :=
  repeat match goal with
  | H : context [match ?up ?n ?rq with Ok _ => _ | Failed _ => _ end] |- _ =>
      destruct (up n rq) eqn:?; simpl in H
  | H : context [if negb (isArray ?d) || _ then _ else _] |- _ =>
      destruct (isArray d) eqn:?; simpl in H
  | H : context [if negb (isArray ?d) then _ else _] |- _ =>
      destruct (isArray d) eqn:?; simpl in H
  | H : context [if (?a =? ?b)%nat then _ else _] |- _ =>
      destruct (a =? b)%nat eqn:?; simpl in H
  | H : context [match get ?a ?b with Fulfilled _ => _ | Rejected _ => _ end] |- _ =>
      destruct (get a b) eqn:?; simpl in H
  | H : context [match ToString ?f ?a with Fulfilled _ => _ | Rejected _ => _ end] |- _ =>
      destruct (ToString f a) eqn:?; simpl in H
  | |- context [match ?up ?n ?rq with Ok _ => _ | Failed _ => _ end] =>
      destruct (up n rq) eqn:?; simpl
  | |- context [if negb (isArray ?d) || _ then _ else _] =>
      destruct (isArray d) eqn:?; simpl
  | |- context [if negb (isArray ?d) then _ else _] =>
      destruct (isArray d) eqn:?; simpl
  | |- context [if (?a =? ?b)%nat then _ else _] =>
      destruct (a =? b)%nat eqn:?; simpl
  | |- context [match get ?a ?b with Fulfilled _ => _ | Rejected _ => _ end] =>
      destruct (get a b) eqn:?; simpl
  | |- context [match ToString ?f ?a with Fulfilled _ => _ | Rejected _ => _ end] =>
      destruct (ToString f a) eqn:?; simpl
  end.

Lemma sidebar_of_other c p k :
  k <> "categories" -> k <> "recentPosts" -> sidebar_of c p !! k = None.
Proof.
  intros H1 H2. apply not_elem_of_dom. rewrite dom_sidebar_of.
  rewrite elem_of_union, !elem_of_singleton. tauto.
Qed.

(** Read a key of a data bag written as an object literal. *)
Ltac read_bag H :=
  unfold object_literal in H; simpl in H;
  repeat first
    [ rewrite lookup_insert_eq in H
    | rewrite lookup_insert_ne in H by discriminate
    | rewrite lookup_union in H
    | rewrite sidebar_of_other in H by discriminate
    | rewrite lookup_empty in H
    | rewrite (left_id_L None (∪)) in H ];
  simpl in H.

Lemma home_requests up v :
  requests (home_route up v) =
    [posts_page_request (page_or_1 v); categories_request; recent_posts_request].
Proof. run_route. split_run; reflexivity. Qed.

Lemma home_currentPage up v rc x :
  rc ∈ renders (home_route up v) -> locals rc !! "currentPage" = Some x ->
  x = JNum (page_or_1 v).
Proof.
  intros H Hx. run_route. split_run.
  all: apply list_elem_of_singleton in H; subst rc; simpl in Hx; read_bag Hx.
  all: congruence.
Qed.

Lemma archive_page_param up nts slug v rq p :
  rq ∈ requests (category_archive_route up nts slug v) ->
  ("page", p) ∈ params rq -> p = JNum (page_or_1 v).
Proof.
  intros H Hp. run_route. split_run.
  all: repeat (apply elem_of_cons in H as [->|H]); try (apply elem_of_nil in H; contradiction).
  all: simpl in Hp.
  all: repeat (apply elem_of_cons in Hp as [Hp|Hp]); try (apply elem_of_nil in Hp; contradiction).
  all: congruence.
Qed.

Lemma archive_currentPage up nts slug v rc x :
  rc ∈ renders (category_archive_route up nts slug v) ->
  locals rc !! "currentPage" = Some x -> x = JNum (page_or_1 v).
Proof.
  intros H Hx. run_route. split_run.
  all: apply list_elem_of_singleton in H; subst rc; simpl in Hx; read_bag Hx.
  all: congruence.
Qed.

Lemma single_post_no_pagination up slug rc k :
  rc ∈ renders (single_post_route up slug) ->
  k = "currentPage" \/ k = "totalPages" -> locals rc !! k = None.
Proof.
  intros H Hk. run_route. split_run.
  all: apply list_elem_of_singleton in H; subst rc; simpl.
  all: destruct Hk as [-> | ->]; unfold object_literal; simpl.
  all: repeat first
         [ rewrite lookup_insert_ne by discriminate
         | rewrite lookup_union
         | rewrite sidebar_of_other by discriminate
         | rewrite lookup_empty
         | rewrite (left_id_L None (∪)) ]; reflexivity.
Qed.

(** ** Page numbers *)

(** The success view of the listing always carries the page that was read. *)
Lemma home_success_currentPage up v rc :
  rc ∈ renders (home_route up v) -> status rc = 200 ->
  locals rc !! "currentPage" = Some (JNum (page_or_1 v)).
Proof.
  intros H Hst. run_route. split_run.
  all: apply list_elem_of_singleton in H; subst rc; simpl in Hst; try discriminate Hst.
  simpl. unfold object_literal. simpl.
  rewrite lookup_insert_ne by discriminate. apply lookup_insert_eq.
Qed.

(** So does the success view of the archive. *)
Lemma archive_success_currentPage up nts slug v rc :
  rc ∈ renders (category_archive_route up nts slug v) -> status rc = 200 ->
  locals rc !! "currentPage" = Some (JNum (page_or_1 v)).
Proof.
  intros H Hst. run_route. split_run.
  all: apply list_elem_of_singleton in H; subst rc; simpl in Hst; try discriminate Hst.
  simpl. unfold object_literal. simpl.
  rewrite lookup_insert_ne by discriminate. apply lookup_insert_eq.
Qed.

(** A fourth request of an archive run is the posts request of a category,
    for the page that was read. *)
Lemma archive_fourth_request up nts slug v rq :
  requests (category_archive_route up nts slug v) !! 3%nat = Some rq ->
  exists id, rq = category_posts_request id (page_or_1 v).
Proof.
  intros H. run_route. split_run; simpl in H; try discriminate H.
  all: injection H as <-; eexists; reflexivity.
Qed.

(** It is sent as soon as the lookup finds a category object. *)
Lemma archive_requests_resolved up nts slug v cr props rest :
  up 2%nat (category_by_slug_request slug) = Ok cr ->
  data cr = JArr (JObj props :: rest) ->
  requests (category_archive_route up nts slug v) =
    [categories_request; recent_posts_request; category_by_slug_request slug;
     category_posts_request (default JUndefined (own_property props (js "id")))
                            (page_or_1 v)].
Proof.
  intros Hcr Hd. run_route. fold (category_by_slug_request slug). rewrite Hcr. simpl.
  rewrite Hd. simpl. split_run; reflexivity.
Qed.

(** C1, as amended. For every page-number route parameter that is absent,
    has no decimal digit after its leading white space and sign, or whose
    leading digits write zero, the listing and the archive resolver use
    page 1. The listing's posts request carries [page=1], and every listing
    view it renders has [currentPage] 1. The archive resolver's posts
    request, sent once the lookup has found a category, carries [page=1], as
    does any fourth request of an archive run, and every archive view it
    renders has [currentPage] 1. No request and no data bag of either
    resolver holds another page. *)
Theorem default_page_is_first
    (up : nat -> request -> reply) (nts : number -> jsstring)
    (slug : jsstring) (v : option jsstring) :
  v = None \/ page_digits v = [] \/ page_magnitude v = 0 ->
  page_or_1 v = Integer 1 /\
  requests (home_route up v) !! 0%nat = Some (posts_page_request (Integer 1)) /\
  (forall rc, rc ∈ renders (home_route up v) -> status rc = 200 ->
     locals rc !! "currentPage" = Some (num 1)) /\
  (forall cr props rest,
     up 2%nat (category_by_slug_request slug) = Ok cr ->
     data cr = JArr (JObj props :: rest) ->
     requests (category_archive_route up nts slug v) !! 3%nat =
       Some (category_posts_request
               (default JUndefined (own_property props (js "id"))) (Integer 1))) /\
  (forall rq, requests (category_archive_route up nts slug v) !! 3%nat = Some rq ->
     path rq = "/posts" /\ ("page", num 1) ∈ params rq) /\
  (forall rc, rc ∈ renders (category_archive_route up nts slug v) ->
     status rc = 200 -> locals rc !! "currentPage" = Some (num 1)) /\
  (forall rc x, rc ∈ renders (home_route up v) ->
     locals rc !! "currentPage" = Some x -> x = num 1) /\
  (forall rq p, rq ∈ requests (category_archive_route up nts slug v) ->
     ("page", p) ∈ params rq -> p = num 1) /\
  (forall rc x, rc ∈ renders (category_archive_route up nts slug v) ->
     locals rc !! "currentPage" = Some x -> x = num 1).
Proof.
  intros H. apply page_or_1_default in H.
  split; [exact H|]. unfold num. rewrite <- H.
  split; [rewrite home_requests; reflexivity|].
  split; [intros rc; apply home_success_currentPage|].
  split.
  { intros cr props rest Hcr Hd.
    rewrite (archive_requests_resolved up nts slug v cr props rest Hcr Hd).
    reflexivity. }
  split.
  { intros rq Hrq. apply archive_fourth_request in Hrq as [id ->].
    split; [reflexivity|]. simpl. do 2 apply list_elem_of_further. apply list_elem_of_here. }
  split; [intros rc; apply archive_success_currentPage|].
  split; [intros rc x; apply home_currentPage|].
  split; [intros rq p; apply archive_page_param|].
  intros rc x. apply archive_currentPage.
Qed.

Lemma default_page_is_first_witness :
  page_digits (Some (js "latest")) = [] /\
  requests (home_route blog_site (Some (js "latest"))) !! 0%nat =
    Some (posts_page_request (Integer 1)) /\
  (exists rc, rc ∈ renders (home_route blog_site (Some (js "latest"))) /\
              status rc = 200 /\ locals rc !! "currentPage" = Some (num 1)) /\
  requests (category_archive_route blog_site plain_Number_toString (js "news")
              (Some (js "latest"))) !! 3%nat =
    Some (category_posts_request (num 3) (Integer 1)) /\
  (exists rc, rc ∈ renders (category_archive_route blog_site plain_Number_toString
                              (js "news") (Some (js "latest"))) /\
              status rc = 200 /\ locals rc !! "currentPage" = Some (num 1)).
Proof.
  destruct (default_page_is_first blog_site plain_Number_toString (js "news")
              (Some (js "latest")))
    as (_ & Hreq & Hcur & Hfourth & _ & Hacur & _).
  { right; left; reflexivity. }
  split; [reflexivity|]. split; [exact Hreq|]. split; [|split].
  - assert (Hin : exists rc, rc ∈ renders (home_route blog_site (Some (js "latest"))) /\
                             status rc = 200).
    { eexists. unfold renders. simpl. split; [left | reflexivity]. }
    destruct Hin as (rc & Hin & Hst). exists rc.
    split; [exact Hin|]. split; [exact Hst|]. exact (Hcur rc Hin Hst).
  - exact (Hfourth {| data := JArr [news_category]; headers := ∅ |}
             [(js "id", num 3); (js "slug", str "news"); (js "name", str "News")] []
             eq_refl eq_refl).
  - assert (Hin : exists rc,
              rc ∈ renders (category_archive_route blog_site plain_Number_toString
                              (js "news") (Some (js "latest"))) /\
              status rc = 200).
    { eexists. unfold renders. simpl. split; [left | reflexivity]. }
    destruct Hin as (rc & Hin & Hst). exists rc.
    split; [exact Hin|]. split; [exact Hst|]. exact (Hacur rc Hin Hst).
Defined.

(** C1 fails on negative parameters: [/page/-5] is parsed to -5, which is
    truthy, so the listing resolver asks upstream for page -5 and hands
    [currentPage = -5] to the template. *)
Lemma negative_page_counterexample :
  page_minus (Some (js "-5")) = true /\
  page_magnitude (Some (js "-5")) = 5 /\
  page_or_1 (Some (js "-5")) = Integer (-5) /\
  requests (home_route blog_site (Some (js "-5"))) !! 0%nat =
    Some (posts_page_request (Integer (-5))) /\
  requests (home_route blog_site (Some (js "-5"))) !! 0%nat <>
    Some (posts_page_request (Integer 1)) /\
  exists rc, rc ∈ renders (home_route blog_site (Some (js "-5"))) /\
             view rc = "index" /\
             locals rc !! "currentPage" = Some (num (-5)).
Proof.
  repeat split; try reflexivity.
  - rewrite home_requests. discriminate.
  - eexists. split; [unfold renders; simpl; left|]. split; reflexivity.
Qed.

Lemma trim_start_white ws s :
  Forall (fun c => is_white_space c = true) ws -> trim_start (ws ++ s) = trim_start s.
Proof.
  intros H. induction H as [|c ws Hc _ IH]; simpl; [reflexivity|].
  rewrite Hc. exact IH.
Qed.

(** The sign and digits read from white space, an optional sign, a run of
    digits and then something that is not a digit. *)
Lemma page_parts_of_prefix ws sg ds c rest :
  Forall (fun w => is_white_space w = true) ws ->
  ds <> [] -> Forall (fun d => is_digit d = true) ds -> is_digit c = false ->
  page_minus (Some (ws ++ sign_text sg ++ ds ++ c :: rest)) =
    match sg with Some true => true | _ => false end /\
  page_digits (Some (ws ++ sign_text sg ++ ds ++ c :: rest)) = ds.
Proof.
  intros Hws Hne Hds Hc. unfold page_minus, page_digits. simpl ToString_opt.
  rewrite (trim_start_white ws _ Hws).
  destruct ds as [|d ds']; [congruence|].
  pose proof Hds as Hall. inversion Hds as [|? ? Hd Hds']; subst.
  destruct sg as [[|]|]; simpl sign_text.
  - simpl. rewrite Hd. split; [reflexivity|].
    f_equal. apply leading_digits_app; assumption.
  - simpl. rewrite Hd. split; [reflexivity|].
    f_equal. apply leading_digits_app; assumption.
  - change ([] ++ (d :: ds') ++ c :: rest) with (d :: (ds' ++ c :: rest)).
    simpl trim_start. rewrite (digit_not_white d Hd).
    rewrite (digit_not_sign d _ Hd). simpl fst. simpl snd. split; [reflexivity|].
    change (d :: ds' ++ c :: rest) with ((d :: ds') ++ c :: rest).
    apply leading_digits_app; assumption.
Qed.

(** C9, as amended. A page-number parameter made of optional white space,
    an optional sign, decimal digits and then a character that is not a
    digit is read as the integer its sign and digits write, whatever
    follows: when the digits write zero the page is 1; otherwise the page is
    that integer, exactly so below 2^53 in magnitude and rounded to the
    nearest double above. That page is the [page] parameter of the listing's
    posts request and [currentPage] of the listing view, and the [page]
    parameter of the archive's posts request (sent once the lookup has found
    a category) and [currentPage] of the archive view. *)
Theorem leading_integer_is_page
    (up : nat -> request -> reply) (nts : number -> jsstring) (slug : jsstring)
    (ws : jsstring) (sg : option bool) (ds : list N) (c : N) (rest : jsstring) :
  Forall (fun w => is_white_space w = true) ws ->
  ds <> [] -> Forall (fun d => is_digit d = true) ds -> is_digit c = false ->
  let v := Some (ws ++ sign_text sg ++ ds ++ c :: rest) in
  let z := signed sg (digits_value ds) in
  let page := if digits_value ds =? 0 then Integer 1 else number_of_Z z in
  page_or_1 v = page /\
  (digits_value ds <> 0 -> digits_value ds < 2 ^ 53 -> page = Integer z) /\
  requests (home_route up v) !! 0%nat = Some (posts_page_request page) /\
  (forall rc, rc ∈ renders (home_route up v) -> status rc = 200 ->
     locals rc !! "currentPage" = Some (JNum page)) /\
  (forall cr props rest',
     up 2%nat (category_by_slug_request slug) = Ok cr ->
     data cr = JArr (JObj props :: rest') ->
     requests (category_archive_route up nts slug v) !! 3%nat =
       Some (category_posts_request
               (default JUndefined (own_property props (js "id"))) page)) /\
  (forall rq, requests (category_archive_route up nts slug v) !! 3%nat = Some rq ->
     path rq = "/posts" /\ ("page", JNum page) ∈ params rq) /\
  (forall rc, rc ∈ renders (category_archive_route up nts slug v) ->
     status rc = 200 -> locals rc !! "currentPage" = Some (JNum page)) /\
  (forall rc x, rc ∈ renders (home_route up v) ->
     locals rc !! "currentPage" = Some x -> x = JNum page) /\
  (forall rq p, rq ∈ requests (category_archive_route up nts slug v) ->
     ("page", p) ∈ params rq -> p = JNum page) /\
  (forall rc x, rc ∈ renders (category_archive_route up nts slug v) ->
     locals rc !! "currentPage" = Some x -> x = JNum page).
Proof.
  intros Hws Hne Hds Hc v z page.
  destruct (page_parts_of_prefix ws sg ds c rest Hws Hne Hds Hc) as [Hm Hd].
  assert (Hpos : 0 <= digits_value ds).
  { unfold digits_value. apply digits_value_nonneg_from; [exact Hds | lia]. }
  assert (Heq : page_or_1 v = page).
  { rewrite page_or_1_eq. unfold page_magnitude. fold v in Hm, Hd. rewrite Hm, Hd.
    unfold page, z, signed. destruct sg as [[|]|]; reflexivity. }
  split; [exact Heq|]. split.
  { intros Hnz Hlt. unfold page.
    destruct (Z.eqb_spec (digits_value ds) 0); [contradiction|].
    apply number_of_Z_exact. unfold z, signed. destruct sg as [[|]|]; lia. }
  rewrite <- Heq.
  split; [rewrite home_requests; reflexivity|].
  split; [intros rc; apply home_success_currentPage|].
  split.
  { intros cr props rest' Hcr Hd'.
    rewrite (archive_requests_resolved up nts slug v cr props rest' Hcr Hd').
    reflexivity. }
  split.
  { intros rq Hrq. apply archive_fourth_request in Hrq as [id ->].
    split; [reflexivity|]. simpl. do 2 apply list_elem_of_further. apply list_elem_of_here. }
  split; [intros rc; apply archive_success_currentPage|].
  split; [intros rc x; apply home_currentPage|].
  split; [intros rq p; apply archive_page_param|].
  intros rc x. apply archive_currentPage.
Qed.

Lemma leading_integer_is_page_witness :
  page_or_1 (Some (js "2abc")) = Integer 2 /\
  requests (home_route blog_site (Some (js "2abc"))) !! 0%nat =
    Some (posts_page_request (Integer 2)) /\
  (exists rc, rc ∈ renders (home_route blog_site (Some (js "2abc"))) /\
              status rc = 200 /\ locals rc !! "currentPage" = Some (num 2)) /\
  requests (category_archive_route blog_site plain_Number_toString (js "news")
              (Some (js "2abc"))) !! 3%nat =
    Some (category_posts_request (num 3) (Integer 2)) /\
  (exists rc, rc ∈ renders (category_archive_route blog_site plain_Number_toString
                              (js "news") (Some (js "2abc"))) /\
              status rc = 200 /\ locals rc !! "currentPage" = Some (num 2)).
Proof.
  destruct (leading_integer_is_page blog_site plain_Number_toString (js "news")
              [] None (js "2") 97%N (js "bc"))
    as (Hpage & _ & Hreq & Hcur & Hfourth & _ & Hacur & _).
  { constructor. }
  { discriminate. }
  { repeat constructor. }
  { reflexivity. }
  split; [exact Hpage|]. split; [exact Hreq|]. split; [|split].
  - assert (Hin : exists rc, rc ∈ renders (home_route blog_site (Some (js "2abc"))) /\
                             status rc = 200).
    { eexists. unfold renders. simpl. split; [left | reflexivity]. }
    destruct Hin as (rc & Hin & Hst). exists rc.
    split; [exact Hin|]. split; [exact Hst|]. exact (Hcur rc Hin Hst).
  - exact (Hfourth {| data := JArr [news_category]; headers := ∅ |}
             [(js "id", num 3); (js "slug", str "news"); (js "name", str "News")] []
             eq_refl eq_refl).
  - assert (Hin : exists rc,
              rc ∈ renders (category_archive_route blog_site plain_Number_toString
                              (js "news") (Some (js "2abc"))) /\
              status rc = 200).
    { eexists. unfold renders. simpl. split; [left | reflexivity]. }
    destruct Hin as (rc & Hin & Hst). exists rc.
    split; [exact Hin|]. split; [exact Hst|]. exact (Hacur rc Hin Hst).
Defined.

Example signed_prefix_is_page : page_or_1 (Some (js "-2abc")) = Integer (-2).
Proof. reflexivity. Qed.

Example padded_prefix_is_page : page_or_1 (Some (js " +12px")) = Integer 12.
Proof. reflexivity. Qed.

Example fraction_is_truncated : page_or_1 (Some (js "1.9")) = Integer 1.
Proof. reflexivity. Qed.

Example fraction_keeps_prefix : page_or_1 (Some (js "2.9")) = Integer 2.
Proof. reflexivity. Qed.

(** C9 fails when the leading integer is zero: for ["0abc"] the leading
    integer 0 is not the requested page, the resolver falls back to 1. *)
Lemma zero_prefix_counterexample :
  page_digits (Some (js "0abc")) = js "0" /\
  digits_value (js "0") = 0 /\
  page_or_1 (Some (js "0abc")) = Integer 1 /\
  page_or_1 (Some (js "0abc")) <> Integer 0 /\
  requests (home_route blog_site (Some (js "0abc"))) !! 0%nat =
    Some (posts_page_request (Integer 1)).
Proof.
  repeat split; try reflexivity. discriminate.
Qed.

Lemma page_or_1_sound v : sound_page_number v (page_or_1 v).
Proof. split; [apply page_or_1_nonzero | apply page_or_1_positive]. Qed.

(** C2, as amended. In every data bag passed to the renderer, [currentPage],
    when present, is [parseInt(pageNumber, 10) || 1] of the route parameter,
    and [totalPages], when present, is [parseInt(header, 10) || 1] of the
    total-pages header of a successful posts response. Each is a number that
    is neither NaN nor zero, and a positive integer (so at least 1) whenever
    the text it is read from has no minus sign before its digits and the
    digits write less than 2^1024 - 2^970. *)
Theorem pagination_state_numbers
    (up : nat -> request -> reply) (nts : number -> jsstring)
    (r : route) (rc : render_call) :
  rc ∈ renders (handle up nts r) ->
  (forall x, locals rc !! "currentPage" = Some x ->
     x = JNum (page_or_1 (page_param r)) /\
     sound_page_number (page_param r) (page_or_1 (page_param r))) /\
  (forall x, locals rc !! "totalPages" = Some x ->
     exists n rq resp,
       up n rq = Ok resp /\ path rq = "/posts" /\
       x = JNum (page_or_1 (headers resp !! "x-wp-totalpages")) /\
       sound_page_number (headers resp !! "x-wp-totalpages")
         (page_or_1 (headers resp !! "x-wp-totalpages"))).
Proof.
  intros H. split; intros x Hx.
  - split; [|apply page_or_1_sound].
    destruct r as [p|s|s p]; simpl in *.
    + eapply home_currentPage; eassumption.
    + rewrite (single_post_no_pagination up s rc "currentPage") in Hx by auto.
      discriminate.
    + eapply archive_currentPage; eassumption.
  - destruct r as [p|s|s p]; simpl in H.
    + run_route. split_run.
      all: apply list_elem_of_singleton in H; subst rc; simpl in Hx; read_bag Hx.
      all: try discriminate.
      injection Hx as <-.
      eexists _, _, _. split; [eassumption|].
      split; [reflexivity|]. split; [reflexivity | apply page_or_1_sound].
    + rewrite (single_post_no_pagination up s rc "totalPages") in Hx by auto.
      discriminate.
    + run_route. split_run.
      all: apply list_elem_of_singleton in H; subst rc; simpl in Hx; read_bag Hx.
      all: try discriminate.
      injection Hx as <-.
      eexists _, _, _. split; [eassumption|].
      split; [reflexivity|]. split; [reflexivity | apply page_or_1_sound].
Qed.

Lemma pagination_state_numbers_witness :
  exists rc,
    rc ∈ renders (handle blog_site plain_Number_toString (Home (Some (js "2")))) /\
    (forall x, locals rc !! "currentPage" = Some x -> x = num 2).
Proof.
  assert (Hin : exists rc,
            rc ∈ renders (handle blog_site plain_Number_toString (Home (Some (js "2"))))).
  { eexists. unfold renders. simpl. left. }
  destruct Hin as [rc Hin]. exists rc. split; [exact Hin|].
  intros x Hx.
  destruct (pagination_state_numbers blog_site plain_Number_toString
              (Home (Some (js "2"))) rc Hin) as [Hcur _].
  destruct (Hcur x Hx) as [-> _]. reflexivity.
Defined.

(** C2 fails on negative inputs: with [/page/-3] and an upstream
    total-pages header of [-2], the listing view is rendered with
    [currentPage = -3] and [totalPages = -2]. *)
Lemma negative_pagination_counterexample :
  exists rc,
    rc ∈ renders (handle negative_total_site plain_Number_toString
                    (Home (Some (js "-3")))) /\
    status rc = 200 /\ view rc = "index" /\
    locals rc !! "currentPage" = Some (JNum (Integer (-3))) /\
    locals rc !! "totalPages" = Some (JNum (Integer (-2))) /\
    ~ positive_integer (Integer (-3)) /\ ~ 1 <= -2.
Proof.
  eexists. split; [unfold renders; simpl; left|].
  repeat split; simpl; lia.
Qed.

Lemma getSidebarData_degrades_witness :
  (exists m, failing_at 1 1 recent_posts_request = Failed m) /\
  snd (getSidebarData (failing_at 1) start) =
    Fulfilled {[ "categories" := JArr []; "recentPosts" := JArr [] ]}.
Proof.
  split; [eexists; reflexivity|].
  destruct (getSidebarData_degrades (failing_at 1) start) as [s [Hrun Hs]].
  rewrite Hrun. simpl. f_equal. apply Hs. right. eexists. reflexivity.
Defined.

(** ** The views *)

(** Every run of a handler ends without an exception escaping and asks for
    exactly one render. *)
Lemma handle_renders_once up nts r :
  exists w rc, handle up nts r start = (w, Fulfilled tt) /\ rendered w = [rc].
Proof.
  destruct r; run_route; split_run; eexists _, _; split; reflexivity.
Qed.

(** C4, as amended. Every data bag passed to the renderer with a status
    other than 500, that is for the three success views and the two
    not-found views, includes the keys [categories] and [recentPosts]; the
    data bag of every 500 error view holds the keys [message] and [title]
    and no other. *)
Theorem sidebar_keys_unless_500
    (up : nat -> request -> reply) (nts : number -> jsstring)
    (r : route) (rc : render_call) :
  rc ∈ renders (handle up nts r) ->
  (status rc = 500 /\ view rc = "error" /\
   dom (locals rc) = ({["message"; "title"]} : gset string)) \/
  (status rc <> 500 /\
   "categories" ∈ dom (locals rc) /\ "recentPosts" ∈ dom (locals rc)).
Proof.
  intros H. destruct r; run_route; split_run.
  all: apply list_elem_of_singleton in H; subst rc; simpl.
  all: unfold object_literal; simpl.
  all: rewrite ?dom_insert_L, ?dom_union_L, ?dom_sidebar_of, ?dom_empty_L.
  all: try (left; split; [reflexivity | split; [reflexivity | set_solver]]).
  all: right; split; [discriminate | set_solver].
Qed.

Lemma sidebar_keys_unless_500_witness :
  exists rc,
    rc ∈ renders (handle bare_site plain_Number_toString (SinglePost (js "hello"))) /\
    status rc = 404 /\
    "categories" ∈ dom (locals rc) /\ "recentPosts" ∈ dom (locals rc).
Proof.
  assert (Hin : exists rc,
            rc ∈ renders (handle bare_site plain_Number_toString (SinglePost (js "hello"))) /\
            status rc = 404).
  { eexists. unfold renders. simpl. split; [left | reflexivity]. }
  destruct Hin as [rc [Hin Hst]]. exists rc. split; [exact Hin|]. split; [exact Hst|].
  destruct (sidebar_keys_unless_500 bare_site plain_Number_toString
              (SinglePost (js "hello")) rc Hin) as [[H500 _]|[_ Hkeys]].
  - rewrite Hst in H500. discriminate H500.
  - exact Hkeys.
Defined.

(** C4 fails on the 500 error views: when upstream cannot be reached the
    listing resolver renders the error view with [message] and [title]
    only. *)
Lemma error_view_counterexample :
  exists rc,
    rc ∈ renders (handle offline_site plain_Number_toString (Home None)) /\
    status rc = 500 /\ view rc = "error" /\
    locals rc !! "categories" = None /\ locals rc !! "recentPosts" = None.
Proof.
  eexists. split; [unfold renders; simpl; left|].
  repeat split.
Qed.

(** C5, as amended. When the payload of the primary posts fetch is not an
    array, the listing resolver renders the error view with status 500 and
    its generic message, and the single-post resolver renders the error view
    with status 404, the post-not-found message and the sidebar data. *)
Theorem malformed_primary_payload
    (up : nat -> request -> reply) (v : option jsstring) (slug : jsstring) :
  (forall r, up 0%nat (posts_page_request (page_or_1 v)) = Ok r ->
     isArray (data r) = false ->
     renders (home_route up v) =
       [{| status := 500; view := "error";
           locals :=
             {[ "message" := str "Could not fetch posts. Please check the API connection.";
                "title" := str "Error" ]} |}]) /\
  (forall r, up 0%nat (post_by_slug_request slug) = Ok r ->
     isArray (data r) = false ->
     renders (single_post_route up slug) =
       [{| status := 404; view := "error";
           locals :=
             object_literal
               [Field "message" (str "The post you were looking for could not be found.");
                Field "title" (str "Post Not Found");
                Spread (sidebar_of (up 1%nat categories_request)
                                   (up 2%nat recent_posts_request))] |}]).
Proof.
  split; intros r Hr Hd; run_route.
  - fold (posts_page_request (page_or_1 v)). rewrite Hr. simpl. rewrite Hd. reflexivity.
  - fold (post_by_slug_request slug). rewrite Hr. simpl. rewrite Hd. reflexivity.
Qed.

Lemma malformed_primary_payload_witness :
  map status (renders (home_route malformed_posts_site None)) = [500] /\
  map status (renders (single_post_route malformed_posts_site (js "hello"))) = [404].
Proof.
  destruct (malformed_primary_payload malformed_posts_site None (js "hello"))
    as [Hhome Hpost].
  split.
  - erewrite Hhome; reflexivity.
  - erewrite Hpost; reflexivity.
Defined.

(** C5 fails for the single-post resolver: a posts payload that is an
    object, not an array, is answered with the 404 not-found view and not
    with a 500 error view. *)
Lemma single_post_counterexample :
  exists r rc,
    malformed_posts_site 0%nat (post_by_slug_request (js "hello")) = Ok r /\
    isArray (data r) = false /\
    renders (single_post_route malformed_posts_site (js "hello")) = [rc] /\
    status rc = 404 /\ status rc <> 500 /\
    locals rc !! "message" =
      Some (str "The post you were looking for could not be found.").
Proof.
  eexists _, _. split; [reflexivity|]. split; [reflexivity|].
  split; [unfold renders; simpl; reflexivity|].
  repeat split. discriminate.
Qed.

(** C6. The archive resolver does not check its posts payload. For
    [/category/news], with the category found and the posts request
    answered by an object instead of an array, it renders the archive view
    with status 200 and hands that object to the template as [posts]; the
    listing resolver, given the same payload, throws and renders the 500
    error view. *)
Theorem archive_posts_payload_unchecked :
  exists resp rc,
    malformed_posts_site 3%nat (category_posts_request (num 3) (Integer 1)) = Ok resp /\
    isArray (data resp) = false /\
    renders (category_archive_route malformed_posts_site plain_Number_toString
               (js "news") None) = [rc] /\
    status rc = 200 /\ view rc = "category-archive" /\
    locals rc !! "posts" = Some (data resp) /\
    map status (renders (home_route malformed_posts_site None)) = [500].
Proof.
  eexists _, _. split; [reflexivity|]. split; [reflexivity|].
  split; [unfold renders; simpl; reflexivity|].
  repeat split.
Qed.

(** The same for every site: once the category is found and the posts
    request is answered, the archive view is rendered with whatever the
    answer holds. *)
Lemma archive_view_any_posts_payload up nts slug v cr props rest pr t :
  up 2%nat (category_by_slug_request slug) = Ok cr ->
  data cr = JArr (JObj props :: rest) ->
  up 3%nat (category_posts_request
              (default JUndefined (own_property props (js "id"))) (page_or_1 v))
    = Ok pr ->
  ToString nts (default JUndefined (own_property props (js "name"))) = Fulfilled t ->
  exists bag,
    renders (category_archive_route up nts slug v) =
      [{| status := 200; view := "category-archive"; locals := bag |}] /\
    bag !! "posts" = Some (data pr).
Proof.
  intros Hcr Hd Hposts Hname. eexists. split.
  - run_route. fold (category_by_slug_request slug). rewrite Hcr. simpl.
    rewrite Hd. simpl.
    match goal with
    | |- context [up 3%nat ?rq] =>
        change rq with (category_posts_request
                          (default JUndefined (own_property props (js "id")))
                          (page_or_1 v))
    end.
    rewrite Hposts. simpl. rewrite Hname. reflexivity.
  - unfold object_literal. simpl.
    rewrite !lookup_insert_ne by discriminate.
    rewrite lookup_union, sidebar_of_other by discriminate.
    rewrite (left_id_L None (∪)).
    rewrite !lookup_insert_ne by discriminate. apply lookup_insert_eq.
Qed.

(** ** The category archive *)

(** C7. When the category lookup of an archive request answers with an
    array whose first element is a category object, the resolver sends one
    more request, for [/posts] with the parameters [categories] = the [id]
    property of that category, [per_page] = 10 and [page] = the requested
    page, and with no [slug] parameter. *)
Theorem archive_posts_filtered_by_id
    (up : nat -> request -> reply) (nts : number -> jsstring)
    (slug : jsstring) (v : option jsstring)
    (cr : response) (props : list (jsstring * jsval)) (rest : list jsval) :
  up 2%nat (category_by_slug_request slug) = Ok cr ->
  data cr = JArr (JObj props :: rest) ->
  let id := default JUndefined (own_property props (js "id")) in
  exists rq,
    requests (category_archive_route up nts slug v) =
      [categories_request; recent_posts_request; category_by_slug_request slug; rq] /\
    path rq = "/posts" /\
    params rq = [("categories", id); ("per_page", num 10); ("page", JNum (page_or_1 v))].
Proof.
  intros Hcr Hd id. exists (category_posts_request id (page_or_1 v)).
  split; [|split; reflexivity].
  run_route. fold (category_by_slug_request slug). rewrite Hcr. simpl.
  rewrite Hd. simpl. fold id. fold (category_posts_request id (page_or_1 v)).
  split_run; reflexivity.
Qed.

Lemma archive_posts_filtered_by_id_witness :
  exists rq,
    requests (category_archive_route blog_site plain_Number_toString
                (js "news") (Some (js "2"))) =
      [categories_request; recent_posts_request;
       category_by_slug_request (js "news"); rq] /\
    path rq = "/posts" /\
    params rq = [("categories", num 3); ("per_page", num 10); ("page", num 2)].
Proof.
  exact (archive_posts_filtered_by_id blog_site plain_Number_toString
           (js "news") (Some (js "2"))
           {| data := JArr [news_category]; headers := ∅ |}
           [(js "id", num 3); (js "slug", str "news"); (js "name", str "News")] []
           eq_refl eq_refl).
Defined.

(** C8. When the category lookup of an archive request answers with an
    empty array, or with something that is not an array, the resolver
    renders the error view with status 404, the message "The category you
    were looking for could not be found." and every entry of the sidebar
    data that [getSidebarData] returned. *)
Theorem unknown_category_not_found
    (up : nat -> request -> reply) (nts : number -> jsstring)
    (slug : jsstring) (v : option jsstring) (cr : response) :
  up 2%nat (category_by_slug_request slug) = Ok cr ->
  isArray (data cr) = false \/ data cr = JArr [] ->
  exists sidebar bag,
    snd (getSidebarData up start) = Fulfilled sidebar /\
    renders (category_archive_route up nts slug v) =
      [{| status := 404; view := "error"; locals := bag |}] /\
    bag !! "message" =
      Some (str "The category you were looking for could not be found.") /\
    sidebar ⊆ bag /\
    "categories" ∈ dom bag /\ "recentPosts" ∈ dom bag.
Proof.
  intros Hcr Hd.
  exists (sidebar_of (up 0%nat categories_request) (up 1%nat recent_posts_request)).
  eexists. split; [rewrite getSidebarData_run; reflexivity|].
  split.
  - run_route. fold (category_by_slug_request slug). rewrite Hcr. simpl.
    destruct Hd as [Hd | Hd]; rewrite Hd; reflexivity.
  - unfold object_literal. simpl. repeat split.
    + rewrite lookup_union, sidebar_of_other by discriminate.
      rewrite (left_id_L None (∪)).
      rewrite lookup_insert_ne by discriminate. apply lookup_insert_eq.
    + apply map_union_subseteq_l.
    + rewrite dom_union_L, dom_sidebar_of. set_solver.
    + rewrite dom_union_L, dom_sidebar_of. set_solver.
Qed.

Lemma unknown_category_not_found_witness :
  exists bag,
    renders (category_archive_route bare_site plain_Number_toString
               (js "missing-cat") None) =
      [{| status := 404; view := "error"; locals := bag |}] /\
    bag !! "message" =
      Some (str "The category you were looking for could not be found.").
Proof.
  destruct (unknown_category_not_found bare_site plain_Number_toString
              (js "missing-cat") None {| data := JArr []; headers := ∅ |}
              eq_refl (or_intror eq_refl))
    as (sidebar & bag & _ & Hrun & Hmsg & _).
  exists bag. split; [exact Hrun | exact Hmsg].
Defined.

(** C10. On the archive route, when both sidebar requests and the category
    lookup succeed and the posts request that follows fails, the resolver
    renders the error view with status 500 and a data bag holding the keys
    [message] and [title] and no other: the sidebar data it has gathered is
    not passed on. *)
Theorem archive_posts_failure_drops_sidebar
    (up : nat -> request -> reply) (nts : number -> jsstring)
    (slug : jsstring) (v : option jsstring)
    (c p cr : response) (props : list (jsstring * jsval)) (rest : list jsval)
    (m : jsstring) :
  up 0%nat categories_request = Ok c ->
  up 1%nat recent_posts_request = Ok p ->
  up 2%nat (category_by_slug_request slug) = Ok cr ->
  data cr = JArr (JObj props :: rest) ->
  up 3%nat (category_posts_request
              (default JUndefined (own_property props (js "id"))) (page_or_1 v))
    = Failed m ->
  snd (getSidebarData up start) =
    Fulfilled (object_literal [Field "categories" (data c);
                               Field "recentPosts" (data p)]) /\
  exists bag,
    renders (category_archive_route up nts slug v) =
      [{| status := 500; view := "error"; locals := bag |}] /\
    dom bag = ({["message"; "title"]} : gset string) /\
    bag !! "message" = Some (str "Could not fetch posts for this category.") /\
    bag !! "title" = Some (str "Error") /\
    bag !! "categories" = None /\ bag !! "recentPosts" = None.
Proof.
  intros Hc Hp Hcr Hd Hposts. split.
  - rewrite getSidebarData_run. simpl. rewrite Hc, Hp. reflexivity.
  - eexists. split.
    + run_route. fold (category_by_slug_request slug). rewrite Hcr. simpl.
      rewrite Hd. simpl.
      match goal with
      | |- context [up 3%nat ?rq] =>
          change rq with (category_posts_request
                            (default JUndefined (own_property props (js "id")))
                            (page_or_1 v))
      end.
      rewrite Hposts. reflexivity.
    + repeat split.
Qed.

Lemma archive_posts_failure_drops_sidebar_witness :
  exists bag,
    renders (category_archive_route (failing_at 3) plain_Number_toString
               (js "news") None) =
      [{| status := 500; view := "error"; locals := bag |}] /\
    dom bag = ({["message"; "title"]} : gset string).
Proof.
  destruct (archive_posts_failure_drops_sidebar (failing_at 3) plain_Number_toString
              (js "news") None
              {| data := JArr [news_category]; headers := ∅ |}
              {| data := JArr [hello_post];
                 headers := {[ "x-wp-totalpages" := js "4" ]} |}
              {| data := JArr [news_category]; headers := ∅ |}
              [(js "id", num 3); (js "slug", str "news"); (js "name", str "News")] []
              (js "Request failed with status code 503")
              eq_refl eq_refl eq_refl eq_refl eq_refl)
    as (_ & bag & Hrun & Hdom & _).
  exists bag. split; [exact Hrun | exact Hdom].
Defined.

(** * Further properties *)

(** Read a key of a data bag in the goal. *)
Ltac read_goal_bag :=
  unfold error_500, object_literal; simpl;
  repeat first
    [ rewrite lookup_insert_eq
    | rewrite lookup_insert_ne by discriminate
    | rewrite lookup_union
    | rewrite sidebar_of_other by discriminate
    | rewrite lookup_empty
    | rewrite (left_id_L None (∪)) ];
  simpl.

(** ** Every run *)

(** X1. Whatever upstream answers, a run of a route handler lets no
    exception escape and asks for exactly one render: the route's own view
    with status 200 and no [message]; or, on the single-post and archive
    routes only, the error view with status 404 and a [message]; or the
    error view with status 500 and the route's failure message. Every data
    bag has a [title]. *)
Theorem every_run_renders_once
    (up : nat -> request -> reply) (nts : number -> jsstring) (r : route) :
  exists w rc,
    handle up nts r start = (w, Fulfilled tt) /\ rendered w = [rc] /\
    ((status rc = 200 /\ view rc = success_view r /\ locals rc !! "message" = None) \/
     (status rc = 404 /\ view rc = "error" /\ (forall p, r <> Home p) /\
      is_Some (locals rc !! "message")) \/
     rc = error_500 (failure_message r)) /\
    is_Some (locals rc !! "title").
Proof.
  destruct r; run_route; split_run; eexists _, _.
  all: split; [reflexivity|]; split; [reflexivity|]; simpl.
  all: split;
    [ first
        [ right; right; reflexivity
        | left; split; [reflexivity|]; split; [reflexivity|]; read_goal_bag; reflexivity
        | right; left; split; [reflexivity|]; split; [reflexivity|];
          split; [discriminate|]; read_goal_bag; eexists; reflexivity ]
    | read_goal_bag; eexists; reflexivity ].
Qed.

(** X2. The upstream requests of a run are the three opening requests of
    its route, in order and whatever the replies are, followed on the
    archive route by at most one posts request for a category; no request is
    sent twice and none goes to an endpoint other than [/posts] and
    [/categories]. *)
Theorem requests_of_a_run
    (up : nat -> request -> reply) (nts : number -> jsstring) (r : route) :
  exists tail,
    requests (handle up nts r) = opening_requests r ++ tail /\
    (tail = [] \/
     exists slug p id,
       r = CategoryArchive slug p /\ tail = [category_posts_request id (page_or_1 p)]) /\
    NoDup (requests (handle up nts r)) /\
    Forall (fun rq => path rq = "/posts" \/ path rq = "/categories")
           (requests (handle up nts r)).
Proof.
  destruct r; run_route; split_run.
  all: first
    [ exists []; split; [reflexivity|]; split; [left; reflexivity|]
    | eexists [_]; split; [reflexivity|]; split;
      [right; eexists _, _, _; split; reflexivity|] ].
  all: split;
    [ repeat (apply NoDup_cons; split;
              [ rewrite ?elem_of_cons, elem_of_nil; intros Hin;
                repeat destruct Hin as [Hin|Hin]; try contradiction; discriminate Hin
              | ]); apply NoDup_nil; trivial
    | repeat (apply Forall_cons; split; [simpl; tauto|]); apply Forall_nil; trivial ].
Qed.

(** X3. The archive resolver sends its posts request exactly when the
    category lookup answers with an array whose first element is neither
    [null] nor [undefined]; otherwise the run stops after the three opening
    requests. *)
Theorem archive_posts_request_sent_iff
    (up : nat -> request -> reply) (nts : number -> jsstring)
    (slug : jsstring) (v : option jsstring) :
  length (requests (category_archive_route up nts slug v)) = 4%nat <->
  exists cr c rest,
    up 2%nat (category_by_slug_request slug) = Ok cr /\
    data cr = JArr (c :: rest) /\ c <> JNull /\ c <> JUndefined.
Proof.
  split.
  - intros H. run_route. fold (category_by_slug_request slug) in *.
    destruct (up 2%nat (category_by_slug_request slug)) as [cr|m] eqn:Hcr;
      simpl in H; [|discriminate H].
    destruct (data cr) as [| | | | |items|] eqn:Hd; simpl in H; try discriminate H.
    destruct items as [|c rest]; simpl in H; [discriminate H|].
    exists cr, c, rest. split; [reflexivity|]. split; [exact Hd|].
    split; intros ->; simpl in H; discriminate H.
  - intros (cr & c & rest & Hcr & Hd & Hnull & Hundef).
    run_route. fold (category_by_slug_request slug). rewrite Hcr. simpl.
    rewrite Hd. simpl.
    assert (Hid : exists id, get c "id" = Fulfilled id).
    { destruct c; try congruence; eexists; reflexivity. }
    destruct Hid as [id ->]. simpl. split_run; reflexivity.
Qed.

Lemma archive_posts_request_sent_iff_witness :
  length (requests (category_archive_route blog_site plain_Number_toString
                      (js "news") None)) = 4%nat.
Proof.
  apply (archive_posts_request_sent_iff blog_site plain_Number_toString (js "news") None).
  exists {| data := JArr [news_category]; headers := ∅ |}, news_category, [].
  repeat split; discriminate.
Defined.

(** ** The sidebar in the page *)

Ltac split_step :=
  match goal with
  | |- context [match ?up ?n ?rq with Ok _ => _ | Failed _ => _ end] =>
      destruct (up n rq) eqn:?; simpl
  | |- context [if negb (isArray ?d) || _ then _ else _] =>
      destruct (isArray d) eqn:?; simpl
  | |- context [if negb (isArray ?d) then _ else _] =>
      destruct (isArray d) eqn:?; simpl
  | |- context [if (?a =? ?b)%nat then _ else _] =>
      destruct (a =? b)%nat eqn:?; simpl
  | |- context [match get ?a ?b with Fulfilled _ => _ | Rejected _ => _ end] =>
      destruct (get a b) eqn:?; simpl
  | |- context [match ToString ?f ?a with Fulfilled _ => _ | Rejected _ => _ end] =>
      destruct (ToString f a) eqn:?; simpl
  end.

(** X4. The sidebar replies decide nothing but the sidebar: two upstreams
    that answer alike every request other than the two sidebar requests give
    runs with the same requests, the same status and view, and data bags
    that agree on every key other than [categories] and [recentPosts]. *)
Theorem sidebar_replies_touch_sidebar_only
    (up1 up2 : nat -> request -> reply) (nts : number -> jsstring) (r : route) :
  (forall n rq, is_sidebar_request rq = false -> up1 n rq = up2 n rq) ->
  requests (handle up1 nts r) = requests (handle up2 nts r) /\
  exists rc1 rc2,
    renders (handle up1 nts r) = [rc1] /\ renders (handle up2 nts r) = [rc2] /\
    status rc1 = status rc2 /\ view rc1 = view rc2 /\
    forall k, k <> "categories" -> k <> "recentPosts" ->
              locals rc1 !! k = locals rc2 !! k.
Proof.
  intros Hagree.
  destruct r; run_route;
    repeat first
      [ match goal with
        | |- context [up1 ?n ?rq] => rewrite (Hagree n rq eq_refl)
        end
      | split_step ].
  all: split; [reflexivity|]; eexists _, _.
  all: split; [reflexivity|]; split; [reflexivity|].
  all: split; [reflexivity|]; split; [reflexivity|].
  all: intros k Hc Hr; unfold object_literal; simpl.
  all: rewrite ?lookup_insert, ?lookup_union, ?sidebar_of_other by assumption.
  all: reflexivity.
Qed.

Lemma sidebar_replies_touch_sidebar_only_witness :
  requests (handle blog_site plain_Number_toString (Home None)) =
    requests (handle (without_sidebar blog_site) plain_Number_toString (Home None)) /\
  exists rc1 rc2,
    renders (handle blog_site plain_Number_toString (Home None)) = [rc1] /\
    renders (handle (without_sidebar blog_site) plain_Number_toString (Home None)) = [rc2] /\
    status rc1 = status rc2 /\ view rc1 = view rc2 /\
    forall k, k <> "categories" -> k <> "recentPosts" ->
              locals rc1 !! k = locals rc2 !! k.
Proof.
  apply (sidebar_replies_touch_sidebar_only blog_site (without_sidebar blog_site)
           plain_Number_toString (Home None)).
  intros n rq H. unfold without_sidebar. rewrite H. reflexivity.
Defined.

Lemma sidebar_of_cases c p :
  (exists rc rp, c = Ok rc /\ p = Ok rp /\
     sidebar_of c p !! "categories" = Some (data rc) /\
     sidebar_of c p !! "recentPosts" = Some (data rp)) \/
  (((exists m, c = Failed m) \/ (exists m, p = Failed m)) /\
   sidebar_of c p !! "categories" = Some (JArr []) /\
   sidebar_of c p !! "recentPosts" = Some (JArr [])).
Proof.
  destruct c as [rc|m], p as [rp|m'].
  - left. exists rc, rp. repeat split.
  - right. split; [right; eexists; reflexivity | split; reflexivity].
  - right. split; [left; eexists; reflexivity | split; reflexivity].
  - right. split; [left; eexists; reflexivity | split; reflexivity].
Qed.

(** X5. In every data bag rendered with a status other than 500, the
    sidebar is all or nothing: when both sidebar requests of the run are
    answered, [categories] and [recentPosts] are the two payloads as they
    came, whatever their shape; when either fails, both are empty arrays. No
    other field of the bag overwrites them. *)
Theorem sidebar_all_or_nothing
    (up : nat -> request -> reply) (nts : number -> jsstring)
    (r : route) (rc : render_call) :
  rc ∈ renders (handle up nts r) -> status rc <> 500 ->
  (exists c p,
     up (sidebar_position r) categories_request = Ok c /\
     up (S (sidebar_position r)) recent_posts_request = Ok p /\
     locals rc !! "categories" = Some (data c) /\
     locals rc !! "recentPosts" = Some (data p)) \/
  (((exists m, up (sidebar_position r) categories_request = Failed m) \/
    (exists m, up (S (sidebar_position r)) recent_posts_request = Failed m)) /\
   locals rc !! "categories" = Some (JArr []) /\
   locals rc !! "recentPosts" = Some (JArr [])).
Proof.
  intros H Hst.
  assert (Hbag : forall k x,
            sidebar_of (up (sidebar_position r) categories_request)
                       (up (S (sidebar_position r)) recent_posts_request) !! k = Some x ->
            k = "categories" \/ k = "recentPosts" ->
            locals rc !! k = Some x).
  { intros k x Hk Hkey.
    destruct r; run_route; split_run.
    all: apply list_elem_of_singleton in H; subst rc; simpl in *; try congruence.
    all: unfold object_literal; simpl.
    all: destruct Hkey as [-> | ->].
    all: rewrite ?lookup_insert_ne by discriminate.
    all: apply lookup_union_Some_l; exact Hk. }
  destruct (sidebar_of_cases (up (sidebar_position r) categories_request)
                             (up (S (sidebar_position r)) recent_posts_request))
    as [(c & p & Hc & Hp & Hcat & Hrec) | (Hfail & Hcat & Hrec)].
  - left. exists c, p. repeat split; auto.
  - right. split; [exact Hfail|]. split; apply Hbag; auto.
Qed.

Lemma sidebar_all_or_nothing_witness :
  exists rc,
    rc ∈ renders (handle (failing_at 1) plain_Number_toString (Home None)) /\
    status rc = 200 /\
    locals rc !! "categories" = Some (JArr []) /\
    locals rc !! "recentPosts" = Some (JArr []).
Proof.
  assert (Hin : exists rc,
            rc ∈ renders (handle (failing_at 1) plain_Number_toString (Home None)) /\
            status rc = 200).
  { eexists. unfold renders. simpl. split; [left | reflexivity]. }
  destruct Hin as [rc [Hin Hst]]. exists rc. split; [exact Hin|]. split; [exact Hst|].
  destruct (sidebar_all_or_nothing (failing_at 1) plain_Number_toString (Home None) rc Hin)
    as [(c & p & Hc & _) | (_ & Hkeys)].
  - rewrite Hst. discriminate.
  - discriminate Hc.
  - exact Hkeys.
Defined.

(** ** Failures of the primary fetch *)

(** X6. When the first request a route sends for its own content fails
    (the posts request of the listing and single-post routes, the category
    lookup of the archive route), the run renders the error view with status
    500, the route's failure message and the title "Error", and sends
    nothing beyond its three opening requests. *)
Theorem primary_failure_is_500
    (up : nat -> request -> reply) (nts : number -> jsstring)
    (r : route) (m : jsstring) :
  up (primary_position r) (primary_request r) = Failed m ->
  renders (handle up nts r) = [error_500 (failure_message r)] /\
  requests (handle up nts r) = opening_requests r.
Proof.
  intros H. destruct r; simpl in H; run_route.
  - fold (posts_page_request (page_or_1 pageNumber)). rewrite H. split; reflexivity.
  - fold (post_by_slug_request slug). rewrite H. split; reflexivity.
  - fold (category_by_slug_request slug). rewrite H. split; reflexivity.
Qed.

Lemma primary_failure_is_500_witness :
  renders (handle offline_site plain_Number_toString (SinglePost (js "hello"))) =
    [error_500 "Could not fetch the post. Please check the API connection."].
Proof.
  apply (primary_failure_is_500 offline_site plain_Number_toString
           (SinglePost (js "hello")) (js "connect ECONNREFUSED")).
  reflexivity.
Defined.

(** ** The listing view *)

(** X7. When the listing's posts request is answered with an array, the
    listing view is rendered with status 200 and a data bag of exactly six
    keys: [posts] is the payload, [title] the site title, [currentPage] the
    page read from the route, [totalPages] the number read from the
    [x-wp-totalpages] header of that same response (1 when the header is
    missing), beside the two sidebar keys. *)
Theorem listing_view
    (up : nat -> request -> reply) (v : option jsstring) (r : response) :
  up 0%nat (posts_page_request (page_or_1 v)) = Ok r ->
  isArray (data r) = true ->
  exists bag,
    renders (home_route up v) = [{| status := 200; view := "index"; locals := bag |}] /\
    dom bag = ({["posts"; "title"; "categories"; "recentPosts";
                 "currentPage"; "totalPages"]} : gset string) /\
    bag !! "posts" = Some (data r) /\
    bag !! "title" = Some (str "Modern Headless Blog") /\
    bag !! "currentPage" = Some (JNum (page_or_1 v)) /\
    bag !! "totalPages" = Some (JNum (page_or_1 (headers r !! "x-wp-totalpages"))) /\
    (headers r !! "x-wp-totalpages" = None -> bag !! "totalPages" = Some (num 1)).
Proof.
  intros Hr Hd. eexists. split.
  - run_route. fold (posts_page_request (page_or_1 v)). rewrite Hr. simpl.
    rewrite Hd. reflexivity.
  - split.
    { unfold object_literal. simpl.
      rewrite !dom_insert_L, dom_union_L, dom_sidebar_of, !dom_insert_L, dom_empty_L.
      set_solver. }
    repeat split; try (read_goal_bag; reflexivity).
    intros Hnone. read_goal_bag. rewrite Hnone. reflexivity.
Qed.

Lemma listing_view_witness :
  exists bag,
    renders (home_route blog_site (Some (js "3"))) =
      [{| status := 200; view := "index"; locals := bag |}] /\
    bag !! "posts" = Some (JArr [hello_post]) /\
    bag !! "currentPage" = Some (num 3) /\
    bag !! "totalPages" = Some (num 4).
Proof.
  destruct (listing_view blog_site (Some (js "3"))
              {| data := JArr [hello_post];
                 headers := {[ "x-wp-totalpages" := js "4" ]} |}
              eq_refl eq_refl)
    as (bag & Hrun & _ & Hposts & _ & Hcur & Htot & _).
  exists bag. repeat split; assumption.
Defined.

(** ** The single-post view *)

(** X8. When the single-post request is answered with a non-empty array
    and [title.rendered] can be read from its first element, the single-post
    view is rendered with status 200 and a data bag of exactly four keys:
    [post] is that first element, [title] its [title.rendered], beside the
    two sidebar keys; further elements of the array are ignored. *)
Theorem single_post_view
    (up : nat -> request -> reply) (slug : jsstring)
    (r : response) (p : jsval) (rest : list jsval) (t x : jsval) :
  up 0%nat (post_by_slug_request slug) = Ok r ->
  data r = JArr (p :: rest) ->
  get p "title" = Fulfilled t -> get t "rendered" = Fulfilled x ->
  exists bag,
    renders (single_post_route up slug) =
      [{| status := 200; view := "single-post"; locals := bag |}] /\
    dom bag = ({["post"; "title"; "categories"; "recentPosts"]} : gset string) /\
    bag !! "post" = Some p /\ bag !! "title" = Some x.
Proof.
  intros Hr Hd Ht Hx. eexists. split.
  - run_route. fold (post_by_slug_request slug). rewrite Hr. simpl.
    rewrite Hd. simpl. rewrite Ht. simpl. rewrite Hx. reflexivity.
  - split.
    { unfold object_literal. simpl.
      rewrite dom_union_L, dom_sidebar_of, !dom_insert_L, dom_empty_L. set_solver. }
    split; read_goal_bag; reflexivity.
Qed.

Lemma single_post_view_witness :
  exists bag,
    renders (single_post_route blog_site (js "hello")) =
      [{| status := 200; view := "single-post"; locals := bag |}] /\
    bag !! "post" = Some hello_post /\ bag !! "title" = Some (str "Hello").
Proof.
  destruct (single_post_view blog_site (js "hello")
              {| data := JArr [hello_post];
                 headers := {[ "x-wp-totalpages" := js "4" ]} |}
              hello_post [] (JObj [(js "rendered", str "Hello")]) (str "Hello")
              eq_refl eq_refl eq_refl eq_refl)
    as (bag & Hrun & _ & Hpost & Htitle).
  exists bag. repeat split; assumption.
Defined.

(** X9. When the single-post request is answered with a non-empty array
    whose first element has no readable title ([null], a value that is not
    an object, or an object whose [title] is missing or [null]), reading
    [title.rendered] throws, and the run renders the 500 error view, not the
    404 one and not the post. *)
Theorem single_post_untitled_is_500
    (up : nat -> request -> reply) (slug : jsstring)
    (r : response) (p : jsval) (rest : list jsval) :
  up 0%nat (post_by_slug_request slug) = Ok r ->
  data r = JArr (p :: rest) ->
  untitled p = true ->
  renders (single_post_route up slug) =
    [error_500 "Could not fetch the post. Please check the API connection."].
Proof.
  intros Hr Hd Hu. run_route. fold (post_by_slug_request slug). rewrite Hr. simpl.
  rewrite Hd. simpl.
  destruct p as [| | | | | |props]; simpl in *; try reflexivity.
  destruct (own_property props (js "title")) as [[]|]; simpl;
    try discriminate Hu; reflexivity.
Qed.

Lemma single_post_untitled_is_500_witness :
  renders (single_post_route (site_of (JObj [(js "id", num 7)])) (js "draft")) =
    [error_500 "Could not fetch the post. Please check the API connection."].
Proof.
  exact (single_post_untitled_is_500 (site_of (JObj [(js "id", num 7)])) (js "draft")
           {| data := JArr [JObj [(js "id", num 7)]]; headers := ∅ |}
           (JObj [(js "id", num 7)]) [] eq_refl eq_refl eq_refl).
Defined.

(** X10. When the single-post request is answered with an empty array, the
    error view is rendered with status 404, the post-not-found message and
    title and the two sidebar keys; the bag has no [post] key. *)
Theorem single_post_not_found
    (up : nat -> request -> reply) (slug : jsstring) (r : response) :
  up 0%nat (post_by_slug_request slug) = Ok r ->
  data r = JArr [] ->
  exists bag,
    renders (single_post_route up slug) =
      [{| status := 404; view := "error"; locals := bag |}] /\
    dom bag = ({["message"; "title"; "categories"; "recentPosts"]} : gset string) /\
    bag !! "message" = Some (str "The post you were looking for could not be found.") /\
    bag !! "title" = Some (str "Post Not Found") /\
    bag !! "post" = None.
Proof.
  intros Hr Hd. eexists. split.
  - run_route. fold (post_by_slug_request slug). rewrite Hr. simpl.
    rewrite Hd. reflexivity.
  - split.
    { unfold object_literal. simpl.
      rewrite dom_union_L, dom_sidebar_of, !dom_insert_L, dom_empty_L. set_solver. }
    repeat split; read_goal_bag; reflexivity.
Qed.

Lemma single_post_not_found_witness :
  exists bag,
    renders (single_post_route bare_site (js "unknown-slug")) =
      [{| status := 404; view := "error"; locals := bag |}] /\
    bag !! "message" = Some (str "The post you were looking for could not be found.") /\
    bag !! "post" = None.
Proof.
  destruct (single_post_not_found bare_site (js "unknown-slug")
              {| data := JArr []; headers := ∅ |} eq_refl eq_refl)
    as (bag & Hrun & _ & Hmsg & _ & Hpost).
  exists bag. repeat split; assumption.
Defined.

(** ** The archive view *)

Ltac name_category_posts props v :=
  match goal with
  | |- context [?up 3%nat ?rq] =>
      change rq with (category_posts_request
                        (default JUndefined (own_property props (js "id")))
                        (page_or_1 v))
  end.

(** X11. When the category lookup finds a category object whose [name] is
    a string and the posts request for it is answered, the archive view is
    rendered with status 200 and a data bag of exactly seven keys: [posts]
    is the posts payload, [category] the category object, [title] the text
    "Category: " followed by the name, [currentPage] the page read from the
    route, [totalPages] the number read from the header of the posts
    response, beside the two sidebar keys. *)
Theorem archive_view
    (up : nat -> request -> reply) (nts : number -> jsstring)
    (slug : jsstring) (v : option jsstring)
    (cr pr : response) (props : list (jsstring * jsval)) (rest : list jsval)
    (name : jsstring) :
  up 2%nat (category_by_slug_request slug) = Ok cr ->
  data cr = JArr (JObj props :: rest) ->
  own_property props (js "name") = Some (JStr name) ->
  up 3%nat (category_posts_request
              (default JUndefined (own_property props (js "id"))) (page_or_1 v))
    = Ok pr ->
  exists bag,
    renders (category_archive_route up nts slug v) =
      [{| status := 200; view := "category-archive"; locals := bag |}] /\
    dom bag = ({["posts"; "category"; "title"; "categories"; "recentPosts";
                 "currentPage"; "totalPages"]} : gset string) /\
    bag !! "posts" = Some (data pr) /\
    bag !! "category" = Some (JObj props) /\
    bag !! "title" = Some (JStr (js "Category: " ++ name)) /\
    bag !! "currentPage" = Some (JNum (page_or_1 v)) /\
    bag !! "totalPages" = Some (JNum (page_or_1 (headers pr !! "x-wp-totalpages"))).
Proof.
  intros Hcr Hd Hname Hpr. eexists. split.
  - run_route. fold (category_by_slug_request slug). rewrite Hcr. simpl.
    rewrite Hd. simpl. name_category_posts props v. rewrite Hpr. simpl.
    rewrite Hname. reflexivity.
  - split.
    { unfold object_literal. simpl.
      rewrite !dom_insert_L, dom_union_L, dom_sidebar_of, !dom_insert_L, dom_empty_L.
      set_solver. }
    repeat split; read_goal_bag; reflexivity.
Qed.

Lemma archive_view_witness :
  exists bag,
    renders (category_archive_route blog_site plain_Number_toString
               (js "news") (Some (js "2"))) =
      [{| status := 200; view := "category-archive"; locals := bag |}] /\
    bag !! "title" = Some (str "Category: News") /\
    bag !! "currentPage" = Some (num 2) /\
    bag !! "totalPages" = Some (num 4).
Proof.
  destruct (archive_view blog_site plain_Number_toString (js "news") (Some (js "2"))
              {| data := JArr [news_category]; headers := ∅ |}
              {| data := JArr [hello_post];
                 headers := {[ "x-wp-totalpages" := js "4" ]} |}
              [(js "id", num 3); (js "slug", str "news"); (js "name", str "News")] []
              (js "News") eq_refl eq_refl eq_refl eq_refl)
    as (bag & Hrun & _ & _ & _ & Htitle & Hcur & Htot).
  exists bag. repeat split; assumption.
Defined.

(** X12. A category without a [name] still gets its archive: the title is
    then "Category: undefined". *)
Theorem archive_view_without_name
    (up : nat -> request -> reply) (nts : number -> jsstring)
    (slug : jsstring) (v : option jsstring)
    (cr pr : response) (props : list (jsstring * jsval)) (rest : list jsval) :
  up 2%nat (category_by_slug_request slug) = Ok cr ->
  data cr = JArr (JObj props :: rest) ->
  own_property props (js "name") = None ->
  up 3%nat (category_posts_request
              (default JUndefined (own_property props (js "id"))) (page_or_1 v))
    = Ok pr ->
  exists bag,
    renders (category_archive_route up nts slug v) =
      [{| status := 200; view := "category-archive"; locals := bag |}] /\
    bag !! "title" = Some (str "Category: undefined").
Proof.
  intros Hcr Hd Hname Hpr. eexists. split.
  - run_route. fold (category_by_slug_request slug). rewrite Hcr. simpl.
    rewrite Hd. simpl. name_category_posts props v. rewrite Hpr. simpl.
    rewrite Hname. reflexivity.
  - read_goal_bag. reflexivity.
Qed.

Lemma archive_view_without_name_witness :
  exists bag,
    renders (category_archive_route (site_of (JObj [(js "id", num 9)]))
               plain_Number_toString (js "misc") None) =
      [{| status := 200; view := "category-archive"; locals := bag |}] /\
    bag !! "title" = Some (str "Category: undefined").
Proof.
  exact (archive_view_without_name (site_of (JObj [(js "id", num 9)]))
           plain_Number_toString (js "misc") None
           {| data := JArr [JObj [(js "id", num 9)]]; headers := ∅ |}
           {| data := JArr [JObj [(js "id", num 9)]]; headers := ∅ |}
           [(js "id", num 9)] [] eq_refl eq_refl eq_refl eq_refl).
Defined.

(** X13. When the category found has a [name] that cannot be turned into
    a string (an object with an own [toString] property), the template
    literal of the title throws after the posts have been fetched: four
    requests are sent and the 500 error view is rendered. *)
Theorem archive_unprintable_name_is_500
    (up : nat -> request -> reply) (nts : number -> jsstring)
    (slug : jsstring) (v : option jsstring)
    (cr pr : response) (props nprops : list (jsstring * jsval)) (rest : list jsval) :
  up 2%nat (category_by_slug_request slug) = Ok cr ->
  data cr = JArr (JObj props :: rest) ->
  own_property props (js "name") = Some (JObj nprops) ->
  is_Some (own_property nprops (js "toString")) ->
  up 3%nat (category_posts_request
              (default JUndefined (own_property props (js "id"))) (page_or_1 v))
    = Ok pr ->
  renders (category_archive_route up nts slug v) =
    [error_500 "Could not fetch posts for this category."] /\
  length (requests (category_archive_route up nts slug v)) = 4%nat.
Proof.
  intros Hcr Hd Hname [x Hx] Hpr.
  run_route. fold (category_by_slug_request slug). rewrite Hcr. simpl.
  rewrite Hd. simpl. name_category_posts props v. rewrite Hpr. simpl.
  rewrite Hname. simpl. rewrite Hx. split; reflexivity.
Qed.

Lemma archive_unprintable_name_is_500_witness :
  renders (category_archive_route (site_of odd_category) plain_Number_toString
             (js "odd") None) =
    [error_500 "Could not fetch posts for this category."].
Proof.
  apply (archive_unprintable_name_is_500 (site_of odd_category) plain_Number_toString
           (js "odd") None
           {| data := JArr [odd_category]; headers := ∅ |}
           {| data := JArr [odd_category]; headers := ∅ |}
           [(js "id", num 3); (js "name", JObj [(js "toString", JNull)])]
           [(js "toString", JNull)] []); try reflexivity.
  eexists. reflexivity.
Defined.

(** X14. When the category lookup answers with an array whose first
    element is [null] or [undefined], reading its [id] throws: the run
    renders the 500 error view and sends no posts request. *)
Theorem archive_null_category_is_500
    (up : nat -> request -> reply) (nts : number -> jsstring)
    (slug : jsstring) (v : option jsstring)
    (cr : response) (c : jsval) (rest : list jsval) :
  up 2%nat (category_by_slug_request slug) = Ok cr ->
  data cr = JArr (c :: rest) ->
  c = JNull \/ c = JUndefined ->
  renders (category_archive_route up nts slug v) =
    [error_500 "Could not fetch posts for this category."] /\
  requests (category_archive_route up nts slug v) =
    [categories_request; recent_posts_request; category_by_slug_request slug].
Proof.
  intros Hcr Hd Hc. run_route. fold (category_by_slug_request slug). rewrite Hcr. simpl.
  rewrite Hd. simpl. destruct Hc as [-> | ->]; split; reflexivity.
Qed.

Lemma archive_null_category_is_500_witness :
  renders (category_archive_route (site_of JNull) plain_Number_toString
             (js "news") None) =
    [error_500 "Could not fetch posts for this category."].
Proof.
  apply (archive_null_category_is_500 (site_of JNull) plain_Number_toString
           (js "news") None {| data := JArr [JNull]; headers := ∅ |} JNull []);
    auto.
Defined.

(** ** Page numbers, continued *)

Lemma leading_digits_all ds :
  Forall (fun d => is_digit d = true) ds -> leading_digits ds = ds.
Proof.
  intros H. induction H as [|d ds Hd _ IH]; simpl; [reflexivity|].
  rewrite Hd, IH. reflexivity.
Qed.

(** The sign and digits read from a parameter made of digits only. *)
Lemma page_parts_of_numeral ds :
  ds <> [] -> Forall (fun d => is_digit d = true) ds ->
  page_minus (Some ds) = false /\ page_digits (Some ds) = ds.
Proof.
  intros Hne Hds. unfold page_minus, page_digits. simpl.
  destruct ds as [|d ds']; [congruence|].
  inversion Hds as [|? ? Hd Hds']; subst.
  simpl trim_start. rewrite (digit_not_white d Hd).
  rewrite (digit_not_sign d _ Hd). simpl fst. simpl snd. split; [reflexivity|].
  apply leading_digits_all. exact Hds.
Qed.

Lemma page_of_numeral ds :
  ds <> [] -> Forall (fun d => is_digit d = true) ds ->
  0 < digits_value ds < 2 ^ 53 ->
  page_or_1 (Some ds) = Integer (digits_value ds).
Proof.
  intros Hne Hds Hv.
  destruct (page_parts_of_numeral ds Hne Hds) as [Hm Hd].
  rewrite page_or_1_eq. unfold page_magnitude. rewrite Hm, Hd.
  destruct (Z.eqb_spec (digits_value ds) 0); [lia|].
  apply number_of_Z_exact. lia.
Qed.

(** X15. A page-number parameter that is a decimal numeral, with or without
    leading zeros, writing an integer between 1 and 2^53 - 1, requests
    exactly that page: it is the [page] parameter of the listing's posts
    request and of every archive request that has one. *)
Theorem numeral_page_is_requested
    (up : nat -> request -> reply) (nts : number -> jsstring) (slug : jsstring)
    (ds : list N) :
  ds <> [] -> Forall (fun d => is_digit d = true) ds ->
  0 < digits_value ds < 2 ^ 53 ->
  requests (home_route up (Some ds)) !! 0%nat =
    Some (posts_page_request (Integer (digits_value ds))) /\
  (forall rq p, rq ∈ requests (category_archive_route up nts slug (Some ds)) ->
     ("page", p) ∈ params rq -> p = num (digits_value ds)).
Proof.
  intros Hne Hds Hv. pose proof (page_of_numeral ds Hne Hds Hv) as Hpage. split.
  - rewrite home_requests, Hpage. reflexivity.
  - intros rq p Hrq Hp. unfold num. rewrite <- Hpage.
    eapply archive_page_param; eassumption.
Qed.

Lemma numeral_page_is_requested_witness :
  requests (home_route blog_site (Some (js "007"))) !! 0%nat =
    Some (posts_page_request (Integer 7)).
Proof.
  apply (numeral_page_is_requested blog_site plain_Number_toString (js "news") (js "007")).
  - discriminate.
  - repeat constructor.
  - vm_compute. split; reflexivity.
Defined.

Lemma decimal_acc d acc :
  fold_left (fun a c => 10 * a + digit_value c) (js (NilEmpty.string_of_uint d)) (Z.pos acc)
  = Z.pos (Pos.of_uint_acc d acc).
Proof.
  revert acc. induction d; intros acc; simpl; try reflexivity; rewrite <- IHd; f_equal.
  all: unfold digit_value; simpl; lia.
Qed.

Lemma decimal_value_of_uint d :
  digits_value (js (NilEmpty.string_of_uint d)) = Z.of_N (Pos.of_uint d).
Proof.
  unfold digits_value.
  induction d; simpl; try reflexivity; try exact IHd.
  all: apply (decimal_acc d).
Qed.

Lemma decimal_digits_uint d :
  Forall (fun c => is_digit c = true) (js (NilEmpty.string_of_uint d)).
Proof. induction d; simpl; constructor; auto. Qed.

Lemma decimal_value n : digits_value (decimal n) = Z.pos n.
Proof.
  unfold decimal. rewrite decimal_value_of_uint, DecimalPos.Unsigned.of_to. reflexivity.
Qed.

(** X16. Writing a page number in decimal and reading it back gives the
    number: for every integer [n] between 1 and 2^53 - 1, the listing for
    [/page/n] asks upstream for page [n], and when that request is answered
    with an array it renders the listing view with [currentPage = n]; no
    data bag of the run holds another [currentPage]. *)
Theorem decimal_page_round_trip
    (up : nat -> request -> reply) (n : positive) :
  Z.pos n < 2 ^ 53 ->
  page_or_1 (Some (decimal n)) = Integer (Z.pos n) /\
  requests (home_route up (Some (decimal n))) !! 0%nat =
    Some (posts_page_request (Integer (Z.pos n))) /\
  (forall r, up 0%nat (posts_page_request (Integer (Z.pos n))) = Ok r ->
     isArray (data r) = true ->
     exists bag,
       renders (home_route up (Some (decimal n))) =
         [{| status := 200; view := "index"; locals := bag |}] /\
       bag !! "currentPage" = Some (num (Z.pos n))) /\
  (forall rc, rc ∈ renders (home_route up (Some (decimal n))) -> status rc = 200 ->
     locals rc !! "currentPage" = Some (num (Z.pos n))) /\
  (forall rc x, rc ∈ renders (home_route up (Some (decimal n))) ->
     locals rc !! "currentPage" = Some x -> x = num (Z.pos n)).
Proof.
  intros Hn.
  assert (Hpage : page_or_1 (Some (decimal n)) = Integer (Z.pos n)).
  { rewrite <- (decimal_value n). apply page_of_numeral.
    - unfold decimal. pose proof (DecimalPos.Unsigned.to_uint_nonnil n) as Hnil.
      destruct (Pos.to_uint n); try congruence; discriminate.
    - apply decimal_digits_uint.
    - rewrite decimal_value. lia. }
  split; [exact Hpage|]. split; [rewrite home_requests, Hpage; reflexivity|].
  unfold num. rewrite <- Hpage. split; [|split].
  - intros r Hr Hd. eexists. split.
    + run_route. fold (posts_page_request (page_or_1 (Some (decimal n)))).
      rewrite Hr. simpl. rewrite Hd. reflexivity.
    + read_goal_bag. reflexivity.
  - intros rc. apply home_success_currentPage.
  - intros rc x. apply home_currentPage.
Qed.

Lemma decimal_page_round_trip_witness :
  decimal 12 = js "12" /\
  requests (home_route blog_site (Some (decimal 12))) !! 0%nat =
    Some (posts_page_request (Integer 12)) /\
  exists bag,
    renders (home_route blog_site (Some (decimal 12))) =
      [{| status := 200; view := "index"; locals := bag |}] /\
    bag !! "currentPage" = Some (num 12).
Proof.
  destruct (decimal_page_round_trip blog_site 12) as (_ & Hreq & Hview & _).
  { reflexivity. }
  split; [reflexivity|]. split; [exact Hreq|].
  exact (Hview {| data := JArr [hello_post];
                  headers := {[ "x-wp-totalpages" := js "4" ]} |} eq_refl eq_refl).
Defined.

(** From the overflow threshold on, rounding gives an infinity. *)
Lemma number_of_Z_overflow z :
  2 ^ 1024 - 2 ^ 970 <= Z.abs z -> number_of_Z z = Infinity (z <? 0).
Proof.
  intros Hge. unfold number_of_Z.
  assert (Hpp : 0 < 2 ^ 970) by (apply Z.pow_pos_nonneg; lia).
  assert (H1024 : 2 ^ 1024 = 2 ^ 54 * 2 ^ 970) by reflexivity.
  assert (H53 : 2 ^ 53 <= Z.abs z).
  { assert (2 ^ 53 <= 2 ^ 970) by (apply Z.pow_le_mono_r; lia). lia. }
  destruct (Z.ltb_spec (Z.abs z) (2 ^ 53)) as [Hlt|_]; [lia|].
  destruct (rounding_parts _ H53) as (Hsh & Hq & Ha & Hl).
  set (a := Z.abs z) in *.
  set (sh := Z.log2 a - 52) in *.
  set (q := Z.shiftr a sh) in *.
  rewrite Hl.
  set (r := a - q * 2 ^ sh).
  name_rounded q q'.
  assert (Hp : 0 < 2 ^ sh) by (apply Z.pow_pos_nonneg; lia).
  rewrite (Z.shiftl_mul_pow2 q') by lia.
  assert (Hv : 2 ^ 1024 <= q' * 2 ^ sh).
  { destruct (Z_lt_le_dec sh 971) as [Hlow|Hhigh].
    - assert (2 ^ sh <= 2 ^ 970) by (apply Z.pow_le_mono_r; lia). nia.
    - destruct (Z.eq_dec sh 971) as [E|NE].
      + assert (Hhalf : 2 ^ (sh - 1) = 2 ^ 970) by (rewrite E; reflexivity).
        assert (H971 : 2 ^ sh = 2 * 2 ^ 970) by (rewrite E; reflexivity).
        assert (Eq : q = 2 ^ 53 - 1) by (rewrite H971 in Ha; nia).
        assert (Hr : 2 ^ 970 <= r) by (unfold r; rewrite H971, Eq; lia).
        assert (Hup : q' = q + 1).
        { unfold q'. rewrite Hhalf.
          destruct (Z.ltb_spec (2 ^ 970) r); [reflexivity|].
          destruct (Z.eqb_spec r (2 ^ 970)); [|lia].
          rewrite Eq. reflexivity. }
        rewrite Hup, Eq, H971. lia.
      + assert (2 ^ 972 <= 2 ^ sh) by (apply Z.pow_le_mono_r; lia).
        assert (H972 : 2 ^ 972 = 4 * 2 ^ 970) by reflexivity.
        nia. }
  destruct (Z.leb_spec (2 ^ 1024) (q' * 2 ^ sh)); [reflexivity | lia].
Qed.

(** X17. The threshold is exact: a page-number parameter or total-pages
    header whose digits write 2^1024 - 2^970 or more (310 nines, say) is
    read as an infinity, of the sign of the text, and the listing then asks
    upstream for page [Infinity]. *)
Theorem oversized_page_is_infinite
    (up : nat -> request -> reply) (v : option jsstring) :
  2 ^ 1024 - 2 ^ 970 <= page_magnitude v ->
  page_or_1 v = Infinity (page_minus v) /\
  requests (home_route up v) !! 0%nat =
    Some (posts_page_request (Infinity (page_minus v))).
Proof.
  intros Hge.
  assert (Hpage : page_or_1 v = Infinity (page_minus v)).
  { assert (Hpp : 0 < 2 ^ 970) by (apply Z.pow_pos_nonneg; lia).
    assert (H1024 : 2 ^ 1024 = 2 ^ 54 * 2 ^ 970) by reflexivity.
    rewrite page_or_1_eq.
    destruct (Z.eqb_spec (page_magnitude v) 0) as [H0|Hn]; [lia|].
    rewrite number_of_Z_overflow.
    - destruct (page_minus v).
      + destruct (Z.ltb_spec (- page_magnitude v) 0); [reflexivity | lia].
      + destruct (Z.ltb_spec (page_magnitude v) 0); [lia | reflexivity].
    - destruct (page_minus v); lia. }
  split; [exact Hpage|]. rewrite home_requests, Hpage. reflexivity.
Qed.

Lemma oversized_page_is_infinite_witness :
  page_or_1 (Some (repeat 57%N 310)) = Infinity false.
Proof.
  apply (oversized_page_is_infinite blog_site (Some (repeat 57%N 310))).
  apply Z.leb_le. vm_compute. reflexivity.
Defined.

(** ** Process start *)

(** X18. The server refuses to start exactly when [WP_URL] is unset or
    empty, and then exits with code 1; otherwise it reaches [app.listen]
    with a client whose base URL is [WP_URL] followed by ["/wp-json/wp/v2"],
    on the port given by [PORT], or on 3000 when [PORT] is unset or empty. *)
Theorem server_start_needs_url (env : gmap string jsstring) :
  (server_start env = Exited 1 <->
   env !! "WP_URL" = None \/ env !! "WP_URL" = Some []) /\
  (forall code, server_start env = Exited code -> code = 1) /\
  (forall url, env !! "WP_URL" = Some url -> url <> [] ->
     exists port api,
       server_start env = Listening port api /\
       baseURL api = url ++ js "/wp-json/wp/v2" /\
       ((env !! "PORT" = None \/ env !! "PORT" = Some []) /\ port = num 3000 \/
        exists s, s <> [] /\ env !! "PORT" = Some s /\ port = JStr s)).
Proof.
  split; [split|split].
  - unfold server_start.
    destruct (env !! "WP_URL") as [[|c url]|]; intros H; try discriminate H; auto.
  - unfold server_start, jsstring in *. intros [H|H]; rewrite H; reflexivity.
  - unfold server_start.
    destruct (env !! "WP_URL") as [[|c url]|]; intros code H; congruence.
  - intros url Hurl Hne. unfold server_start, jsstring in *. rewrite Hurl.
    destruct url as [|c url]; [congruence|].
    eexists _, _. split; [reflexivity|]. split; [reflexivity|].
    destruct (env !! "PORT") as [[|d s]|].
    + left. auto.
    + right. exists (d :: s). repeat split. discriminate.
    + left. auto.
Qed.

(** X19. A started server sends a credential only if it has one: the
    client's default headers hold [Authorization], with the value "Bearer "
    followed by the key, exactly when [WP_API_KEY] is set and not empty, and
    never hold any other header. *)
Theorem server_start_credential
    (env : gmap string jsstring) (port : jsval) (api : client) :
  server_start env = Listening port api ->
  (forall key, env !! "WP_API_KEY" = Some key -> key <> [] ->
     client_headers api = {[ "Authorization" := js "Bearer " ++ key ]} /\
     drop 7 (js "Bearer " ++ key) = key) /\
  (env !! "WP_API_KEY" = None \/ env !! "WP_API_KEY" = Some [] ->
     client_headers api = ∅) /\
  (forall name value, client_headers api !! name = Some value ->
     name = "Authorization" /\
     exists key, key <> [] /\ env !! "WP_API_KEY" = Some key /\
                 value = js "Bearer " ++ key).
Proof.
  unfold server_start, jsstring in *. intros H.
  destruct (env !! "WP_URL") as [[|c url]|]; try discriminate H.
  injection H as _ Hapi. subst api. simpl.
  destruct (env !! "WP_API_KEY") as [[|k key]|]; split; [|split| |split| |split].
  - intros key [= <-] Hne. congruence.
  - intros _. reflexivity.
  - intros name value Hl. rewrite lookup_empty in Hl. discriminate Hl.
  - intros key' [= <-] _. split; reflexivity.
  - intros [Hk|Hk]; discriminate Hk.
  - intros name value Hl. apply lookup_insert_Some in Hl as [[<- <-]|[_ Hl]].
    + split; [reflexivity|]. exists (k :: key). repeat split. discriminate.
    + rewrite lookup_empty in Hl. discriminate Hl.
  - intros key Hk. discriminate Hk.
  - intros _. reflexivity.
  - intros name value Hl. rewrite lookup_empty in Hl. discriminate Hl.
Qed.

Lemma server_start_needs_url_witness :
  server_start (∅ : gmap string jsstring) = Exited 1 /\
  exists api,
    server_start sample_env = Listening (num 3000) api /\
    baseURL api = js "https://cms.example.com/wp-json/wp/v2".
Proof.
  split.
  - apply (server_start_needs_url ∅). left. reflexivity.
  - destruct (server_start_needs_url sample_env) as (_ & _ & Hstart).
    destruct (Hstart (js "https://cms.example.com") eq_refl)
      as (port & api & Hrun & Hbase & Hport); [discriminate|].
    exists api. split; [|exact Hbase].
    destruct Hport as [[_ ->] | (s & _ & Hs & _)]; [exact Hrun | discriminate Hs].
Defined.

Lemma server_start_credential_witness :
  exists port api,
    server_start sample_env = Listening port api /\
    client_headers api = {[ "Authorization" := js "Bearer s3cret" ]}.
Proof.
  destruct (server_start sample_env) as [code|port api] eqn:E;
    [vm_compute in E; discriminate E|].
  exists port, api. split; [reflexivity|].
  destruct (server_start_credential sample_env port api E) as [Hkey _].
  destruct (Hkey (js "s3cret") eq_refl) as [Hh _]; [discriminate|]. exact Hh.
Defined.
